(** * Storno CLI: the session store and the authenticated request executor

    A shallow embedding of [config.ts] (the lazily initialised session
    record) and of [client.ts] (the function [apiRequest] through which
    every remote call passes), with the properties of the request
    building, the refresh-and-retry protocol and the response
    normalisation.

    JavaScript objects used as string-keyed maps of strings (request
    headers, [process.env]) are finite maps; objects whose entry order is
    observable (the query object, the extra form fields, parsed JSON
    objects) are association lists.  The HTTP transport, the file system
    and the Node library functions the executor calls are not code of the
    repository: they are an interface the development is parameterised
    by. *)

From Stdlib Require Import ZArith String List Ascii Strings.Byte Bool Lia.
From Stdlib Require Import Floats.SpecFloat.
From stdpp Require Import base option gmap strings list pretty.

Local Open Scope string_scope.
Local Open Scope Z_scope.

Set Warnings "-register-all".

(* ===================================================================== *)
(** ** JavaScript values *)
(* ===================================================================== *)

(** Values produced by [JSON.parse], which are also the values the result
    envelope carries in [data], [error] and [details].  Numbers are the
    integers. *)
Inductive json : Type :=
| JNull
| JBool (b : bool)
| JNum (n : Z)
| JStr (s : string)
| JArr (items : list json)
| JObj (fields : list (string * json)).

(** A value that may be [undefined]. *)
Definition jsval := option json.

(** Lookup in an association list keyed by strings. *)
Fixpoint assoc {A : Type} (k : string) (l : list (string * A)) : option A :=
  match l with
  | [] => None
  | (k', v) :: t => if String.eqb k' k then Some v else assoc k t
  end.

(** [v.k] for a value [v] that is neither [null] nor [undefined]: an
    object yields the field, every other value has no such property. *)
Definition js_prop (k : string) (v : json) : jsval :=
  match v with
  | JObj fields => assoc k fields
  | _ => None
  end.

(** JavaScript truthiness. *)
Definition truthy (v : jsval) : bool :=
  match v with
  | None => false
  | Some JNull => false
  | Some (JBool b) => b
  | Some (JNum n) => negb (n =? 0)
  | Some (JStr s) => negb (String.eqb s EmptyString)
  | Some (JArr _) => true
  | Some (JObj _) => true
  end.

(** [String(v)], which is also what a template literal inserts.  An array
    is its elements joined by commas, [null] elements printing as
    nothing. *)
Fixpoint ToString (v : json) : string :=
  match v with
  | JNull => "null"
  | JBool true => "true"
  | JBool false => "false"
  | JNum n => pretty n
  | JStr s => s
  | JArr items =>
      String.concat ","
        (List.map (fun x => match x with JNull => EmptyString | _ => ToString x end) items)
  | JObj _ => "[object Object]"
  end.

Definition template (v : jsval) : string :=
  match v with
  | Some j => ToString j
  | None => "undefined"
  end.

(** Truthiness of a [string | null] field. *)
Definition present (s : option string) : bool :=
  match s with
  | Some s => negb (String.eqb s EmptyString)
  | None => false
  end.

(** [a || b] on [string | null] operands. *)
Definition or_else (a b : option string) : option string :=
  if present a then a else b.

(** [`${s}`] for a [string | null] value. *)
Definition render (s : option string) : string :=
  match s with
  | Some s => s
  | None => "null"
  end.

(** [s.includes(sub)]. *)
Definition includes (sub s : string) : bool :=
  match String.index 0 sub s with
  | Some _ => true
  | None => false
  end.

(** [s.startsWith(p)]. *)
Definition startsWith (p s : string) : bool := String.prefix p s.

(** [s.replace(/\/$/, '')]: one slash at the very end is removed. *)
Fixpoint strip_trailing_slash (s : string) : string :=
  match s with
  | EmptyString => EmptyString
  | String c EmptyString => if Ascii.eqb c "/" then EmptyString else s
  | String c r => String c (strip_trailing_slash r)
  end.

(* ===================================================================== *)
(** ** config.ts: the session store *)
(* ===================================================================== *)

(** The two tokens are declared [string | null], but they are stored as
    read from the JSON answer of the server, unchecked: they are kept as
    JavaScript values. *)
Record Config : Type := {
  baseUrl : string;
  token : jsval;
  refreshToken : jsval;
  companyId : option string;
  email : option string;
  password : option string
}.

(** [Partial<Config>]: each field is either absent or carries the value
    to store. *)
Record PartialConfig : Type := {
  set_baseUrl : option string;
  set_token : option jsval;
  set_refreshToken : option jsval;
  set_companyId : option (option string);
  set_email : option (option string);
  set_password : option (option string)
}.

(** [Object.assign(config, updates)]. *)
Definition assign (c : Config) (u : PartialConfig) : Config :=
  {| baseUrl := default (baseUrl c) (set_baseUrl u);
     token := default (token c) (set_token u);
     refreshToken := default (refreshToken c) (set_refreshToken u);
     companyId := default (companyId c) (set_companyId u);
     email := default (email c) (set_email u);
     password := default (password c) (set_password u) |}.

(** [process.env.NAME || null]. *)
Definition env_or_null (env : gmap string string) (name : string) : option string :=
  or_else (env !! name) None.

(** A [string | null] value as a JavaScript value. *)
Definition js_of (s : option string) : jsval :=
  match s with
  | Some s => Some (JStr s)
  | None => Some JNull
  end.

(** The record [getConfig] creates on first access. *)
Definition initial_config (env : gmap string string) : Config :=
  {| baseUrl :=
       strip_trailing_slash
         (render (or_else (env !! "STORNO_BASE_URL") (Some "https://api.storno.ro")));
     token := js_of (env_or_null env "STORNO_TOKEN");
     refreshToken := js_of (env_or_null env "STORNO_REFRESH_TOKEN");
     companyId := env_or_null env "STORNO_COMPANY_ID";
     email := env_or_null env "STORNO_EMAIL";
     password := env_or_null env "STORNO_PASSWORD" |}.

(* ===================================================================== *)
(** ** The request, the response and the host interface *)
(* ===================================================================== *)

Inductive HttpMethod : Type := GET | POST | PUT | PATCH | DELETE.

(** One entry of a [FormData] body. *)
Inductive FormPart : Type :=
| FilePart (field : string) (content : list byte) (fileName : string)
| FieldPart (field : string) (value : string).

(** [BodyInit | undefined], as the executor produces it. *)
Inductive RequestBody : Type :=
| NoBody
| TextBody (serialized : string)
| FormBody (parts : list FormPart).

(** The arguments of one [fetch] call. *)
Record Request : Type := {
  req_url : string;
  req_method : HttpMethod;
  req_headers : gmap string string;
  req_body : RequestBody
}.

(** A [Response], by what the executor can observe of it: the status, the
    [content-type] header, and what each way of consuming the body
    yields ([None] when the promise rejects). *)
Record Response : Type := {
  res_status : Z;
  res_content_type : option string;
  res_text : option string;
  res_json : option json;
  res_arrayBuffer : option (list byte)
}.

(** [res.ok]. *)
Definition res_ok (r : Response) : bool :=
  (200 <=? res_status r) && (res_status r <=? 299).

(** What awaiting [fetch] gives: a response, or a rejection with the
    text [err instanceof Error ? err.message : String(err)]. *)
Inductive FetchOutcome : Type :=
| Responded (r : Response)
| Rejected (message : string).

(** A parsed [URL]: its query entries, in order, and everything else. *)
Record URL : Type := {
  url_location : string;
  url_searchParams : list (string * string);
  url_hash : string
}.

(** The Node and web platform functions the executor calls. *)
Class Runtime : Type := {
  (** [new URL(path, base)]; [None] when it throws. *)
  URL_parse : string -> string -> option URL;
  (** [url.toString()]. *)
  URL_toString : URL -> string;
  (** [JSON.stringify]. *)
  JSON_stringify : json -> string;
  (** [Buffer.from(b).toString('base64')]. *)
  toBase64 : list byte -> string;
  (** [basename] of [node:path]. *)
  basename : string -> string;
  (** [String(n)] for a number [n], a double given by its sign, its
      significand and its exponent. *)
  Number_toString : spec_float -> string
}.

(** The world outside the process: the environment variables, the file
    system as [readFileSync] sees it, and the network, which answers a
    request knowing the requests sent before it. *)
Record Host : Type := {
  process_env : gmap string string;
  readFileSync : string -> option (list byte);
  network : list Request -> Request -> FetchOutcome
}.

(* ===================================================================== *)
(** ** Computations: state passing with exceptions *)
(* ===================================================================== *)

(** The mutable state of the process: the module variable [_config] and
    the requests sent so far. *)
Record World : Type := {
  _config : option Config;
  sent : list Request
}.

Inductive Exn : Type :=
| InvalidURL
| FileReadError (path : string)
| BodyReadError
| NullPropertyRead (property : string)
| NotAFunction (property : string).

Inductive Outcome (A : Type) : Type :=
| Returned (a : A)
| Thrown (e : Exn).
Arguments Returned {A} a.
Arguments Thrown {A} e.

Definition M (A : Type) : Type := World -> Outcome A * World.

Definition ret {A : Type} (a : A) : M A := fun w => (Returned a, w).

Definition throw {A : Type} (e : Exn) : M A := fun w => (Thrown e, w).

Definition bind {A B : Type} (m : M A) (k : A -> M B) : M B :=
  fun w =>
    match m w with
    | (Returned a, w') => k a w'
    | (Thrown e, w') => (Thrown e, w')
    end.

Definition lift {A : Type} (o : Outcome A) : M A := fun w => (o, w).

Declare Scope exec_scope.
Delimit Scope exec_scope with exec.
Notation "'let*' x ':=' m 'in' k" := (bind m (fun x => k))
  (at level 10, x pattern, m at level 100, k at level 200) : exec_scope.
Local Open Scope exec_scope.

(* ===================================================================== *)
(** ** client.ts: building the request *)
(* ===================================================================== *)

(** The values a query object may hold.  A number is a double. *)
Inductive QueryValue : Type :=
| QUndefined
| QNull
| QString (s : string)
| QNumber (n : spec_float)
| QBoolean (b : bool).

(** The test [value !== undefined && value !== null && value !== empty]. *)
Definition query_keep (v : QueryValue) : bool :=
  match v with
  | QUndefined => false
  | QNull => false
  | QString s => negb (String.eqb s EmptyString)
  | QNumber _ => true
  | QBoolean _ => true
  end.

(** [String(value)]; a number is printed by the platform. *)
Definition String_of {rt : Runtime} (v : QueryValue) : string :=
  match v with
  | QUndefined => "undefined"
  | QNull => "null"
  | QString s => s
  | QNumber n => Number_toString n
  | QBoolean true => "true"
  | QBoolean false => "false"
  end.

Definition named (k : string) (p : string * string) : bool := String.eqb (fst p) k.

(** [URLSearchParams.prototype.set]: the first entry named [k] takes the
    value and the later ones are removed; without such an entry one is
    appended. *)
Fixpoint searchParams_set (k v : string) (ps : list (string * string))
  : list (string * string) :=
  match ps with
  | [] => [(k, v)]
  | p :: rest =>
      if named k p
      then (k, v) :: List.filter (fun q => negb (named k q)) rest
      else p :: searchParams_set k v rest
  end.

(** The loop over [Object.entries(query)]. *)
Definition apply_query {rt : Runtime} (q : list (string * QueryValue))
    (ps : list (string * string)) : list (string * string) :=
  fold_left
    (fun acc kv => if query_keep (snd kv)
                   then searchParams_set (fst kv) (String_of (snd kv)) acc
                   else acc)
    q ps.

Record RequestOptions : Type := {
  opt_method : option HttpMethod;
  opt_body : option (list (string * json));
  opt_query : option (list (string * QueryValue));
  opt_headers : gmap string string;
  opt_companyId : option string;
  opt_noAuth : bool;
  opt_binary : bool;
  opt_filePath : option string;
  opt_fileFieldName : option string;
  opt_formFields : option (list (string * string))
}.

(** [apiRequest(path)] with no options. *)
Definition no_options : RequestOptions :=
  {| opt_method := None; opt_body := None; opt_query := None; opt_headers := ∅;
     opt_companyId := None; opt_noAuth := false; opt_binary := false;
     opt_filePath := None; opt_fileFieldName := None; opt_formFields := None |}.

(** The [Authorization] value of the first request. *)
Definition authorization (t : string) : string :=
  if startsWith "af_" t then t else "Bearer " ++ t.

(** The tenant step: [X-Company] when a company id is resolved. *)
Definition company_header (config : Config) (o : RequestOptions)
    (h : gmap string string) : gmap string string :=
  let effectiveCompanyId := or_else (opt_companyId o) (companyId config) in
  if present effectiveCompanyId
  then <["X-Company" := render effectiveCompanyId]> h
  else h.

Section Executor.

Context {rt : Runtime} (host : Host).

(** *** The store *)

Definition getConfig : M Config :=
  fun w =>
    match _config w with
    | Some c => (Returned c, w)
    | None =>
        let c := initial_config (process_env host) in
        (Returned c, {| _config := Some c; sent := sent w |})
    end.

Definition updateConfig (updates : PartialConfig) : M unit :=
  let* config := getConfig in
  fun w => (Returned tt, {| _config := Some (assign config updates); sent := sent w |}).

(** The record a read of the store yields in world [w], the world the
    read leaves, and the base URL it observes. *)
Definition current (w : World) : Config :=
  default (initial_config (process_env host)) (_config w).

Definition settled (w : World) : World :=
  {| _config := Some (current w); sent := sent w |}.

Definition read_baseUrl (w : World) : option string :=
  match fst (getConfig w) with
  | Returned c => Some (baseUrl c)
  | Thrown _ => None
  end.

(** *** The transport *)

Definition fetch (r : Request) : M FetchOutcome :=
  fun w =>
    (Returned (network host (sent w) r),
     {| _config := _config w; sent := sent w ++ [r] |}).

(** *** URL and query parameters *)

Definition build_url (config : Config) (path : string) (o : RequestOptions) : M URL :=
  match URL_parse path (baseUrl config) with
  | None => throw InvalidURL
  | Some url =>
      ret {| url_location := url_location url;
             url_searchParams :=
               match opt_query o with
               | Some q => apply_query q (url_searchParams url)
               | None => url_searchParams url
               end;
             url_hash := url_hash url |}
  end.

(** *** Headers and body *)

(** The authorisation step.  A truthy token that is not a string has no
    method [startsWith]. *)
Definition auth_header (config : Config) (o : RequestOptions)
    (h : gmap string string) : M (gmap string string) :=
  if negb (opt_noAuth o) && truthy (token config) then
    match token config with
    | Some (JStr t) => ret (<["Authorization" := authorization t]> h)
    | _ => throw (NotAFunction "startsWith")
    end
  else ret h.

Definition form_data (fieldName : string) (content : list byte) (fileName : string)
    (fields : option (list (string * string))) : list FormPart :=
  FilePart fieldName content fileName
    :: List.map (fun kv => FieldPart (fst kv) (snd kv)) (default [] fields).

Definition build_body (h : gmap string string) (o : RequestOptions)
  : M (gmap string string * RequestBody) :=
  if present (opt_filePath o) then
    let filePath := render (opt_filePath o) in
    match readFileSync host filePath with
    | None => throw (FileReadError filePath)
    | Some fileBuffer =>
        ret (h, FormBody (form_data (default "file" (opt_fileFieldName o))
                                    fileBuffer (basename filePath)
                                    (opt_formFields o)))
    end
  else
    match opt_body o with
    | Some body =>
        ret (<["Content-Type" := "application/json"]> h,
             TextBody (JSON_stringify (JObj body)))
    | None => ret (h, NoBody)
    end.

(** Everything up to [fetchOptions]. *)
Definition build_request (path : string) (o : RequestOptions) : M Request :=
  let* config := getConfig in
  let* url := build_url config path o in
  let* h := auth_header config o (opt_headers o) in
  let* hb := build_body (company_header config o h) o in
  ret {| req_url := URL_toString url;
         req_method := default GET (opt_method o);
         req_headers := fst hb;
         req_body := snd hb |}.

(** *** The result envelope and the response normalisation *)

(** [ApiResponse<T> | ApiError]; the tag is the field [ok]. *)
Inductive ApiResult : Type :=
| Success (status : Z) (data : json)
| Failure (status : Z) (error : json) (details : option json).

Definition http_status_text (status : Z) : string := "HTTP " ++ pretty status.

(** The error text of a non-OK JSON answer:
    [errBody.message || errBody.error || `HTTP ${res.status}`]. *)
Definition error_of (errBody : json) (status : Z) : json :=
  let message := js_prop "message" errBody in
  let error := js_prop "error" errBody in
  if truthy message then default JNull message
  else if truthy error then default JNull error
  else JStr (http_status_text status).

(** The part of [apiRequest] after the comment "Parse response". *)
Definition parseResponse (binary : bool) (res : Response) : Outcome ApiResult :=
  if binary then
    if negb (res_ok res) then
      Returned (Failure (res_status res)
                        (JStr (default "Unknown error" (res_text res))) None)
    else
      match res_arrayBuffer res with
      | None => Thrown BodyReadError
      | Some buffer =>
          Returned (Success (res_status res)
                     (JObj [("base64", JStr (toBase64 buffer));
                            ("contentType",
                             match res_content_type res with
                             | Some c => JStr c
                             | None => JNull
                             end)]))
      end
  else if res_status res =? 204 then
    Returned (Success 204 JNull)
  else
    let contentType := default EmptyString (res_content_type res) in
    if negb (includes "application/json" contentType) then
      let text := default EmptyString (res_text res) in
      if negb (res_ok res) then
        Returned (Failure (res_status res)
                          (JStr (if String.eqb text EmptyString
                                 then http_status_text (res_status res)
                                 else text))
                          None)
      else Returned (Success (res_status res) (JStr text))
    else
      match res_json res with
      | None =>
          Returned (Failure (res_status res) (JStr "Failed to parse JSON response") None)
      | Some data =>
          if negb (res_ok res) then
            match data with
            | JNull => Thrown (NullPropertyRead "message")
            | errBody =>
                Returned (Failure (res_status res)
                                  (error_of errBody (res_status res))
                                  (Some errBody))
            end
          else Returned (Success (res_status res) data)
      end.

(** *** Token refresh *)

Definition refresh_endpoint (config : Config) : string :=
  baseUrl config ++ "/api/auth/token/refresh".

(** The request of the refresh.  [JSON.stringify] leaves out a property
    whose value is [undefined]. *)
Definition refresh_request (config : Config) : Request :=
  {| req_url := refresh_endpoint config;
     req_method := POST;
     req_headers := {[ "Content-Type" := "application/json" ]};
     req_body :=
       TextBody (JSON_stringify
                   (JObj match refreshToken config with
                         | Some v => [("refresh_token", v)]
                         | None => []
                         end)) |}.

Definition refreshAccessToken : M bool :=
  let* config := getConfig in
  if negb (truthy (refreshToken config)) then ret false
  else
    let* out := fetch (refresh_request config) in
    match out with
    | Rejected _ => ret false
    | Responded res =>
        if negb (res_ok res) then ret false
        else
          match res_json res with
          | None => ret false
          | Some JNull => ret false
          | Some data =>
              let* _ := updateConfig
                          {| set_baseUrl := None;
                             set_token := Some (js_prop "token" data);
                             set_refreshToken := Some (js_prop "refresh_token" data);
                             set_companyId := None;
                             set_email := None;
                             set_password := None |} in
              ret true
          end
    end.

(** The update of the store a refresh answer leads to, if any: the
    cases in which [refreshAccessToken] reaches [updateConfig]. *)
Definition refresh_update (out : FetchOutcome) : option PartialConfig :=
  match out with
  | Rejected _ => None
  | Responded res =>
      if res_ok res then
        match res_json res with
        | None => None
        | Some JNull => None
        | Some data =>
            Some {| set_baseUrl := None;
                    set_token := Some (js_prop "token" data);
                    set_refreshToken := Some (js_prop "refresh_token" data);
                    set_companyId := None;
                    set_email := None;
                    set_password := None |}
        end
      else None
  end.

(** *** The executor *)

Definition network_failure (prefix message : string) : ApiResult :=
  Failure 0 (JStr (prefix ++ message)) None.

Definition with_authorization (value : string) (r : Request) : Request :=
  {| req_url := req_url r;
     req_method := req_method r;
     req_headers := <["Authorization" := value]> (req_headers r);
     req_body := req_body r |}.

(** The part of [apiRequest] before "Parse response": it ends either
    with a result already decided or with the response to parse. *)
Definition exchange (path : string) (o : RequestOptions) : M (ApiResult + Response) :=
  let* req := build_request path o in
  let* out := fetch req in
  match out with
  | Rejected message => ret (inl (network_failure "Network error: " message))
  | Responded res =>
      let* config := getConfig in
      if (res_status res =? 401) && negb (opt_noAuth o) && truthy (refreshToken config)
      then
        let* refreshed := refreshAccessToken in
        if refreshed then
          let* config' := getConfig in
          let* out' :=
            fetch (with_authorization ("Bearer " ++ template (token config')) req) in
          match out' with
          | Rejected message =>
              ret (inl (network_failure "Network error after token refresh: " message))
          | Responded res' => ret (inr res')
          end
        else ret (inr res)
      else ret (inr res)
  end.

Definition apiRequest (path : string) (o : RequestOptions) : M ApiResult :=
  let* r := exchange path o in
  match r with
  | inl result => ret result
  | inr res => lift (parseResponse (opt_binary o) res)
  end.

(** A response whose body the normalisation can consume: the bytes of
    an OK answer can be read when the caller expects binary data, and
    the parsed body of a JSON error answer is not [null]. *)
Definition body_usable (binary : bool) (res : Response) : Prop :=
  if binary
  then res_ok res = true -> is_Some (res_arrayBuffer res)
  else res_ok res = false -> res_json res <> Some JNull.

End Executor.

(* ===================================================================== *)
(** ** A concrete platform and scripted hosts *)
(* ===================================================================== *)

(** A small instance of the interface, used to run the executor on
    concrete calls: URLs are concatenated (paths carry no query string
    of their own), JSON is printed without escapes. *)
Module Demo.

Definition alphabet : string :=
  "ABCDEFGHIJKLMNOPQRSTUVWXYZabcdefghijklmnopqrstuvwxyz0123456789+/".

Definition digit (n : N) : string :=
  match String.get (N.to_nat n) alphabet with
  | Some c => String c EmptyString
  | None => EmptyString
  end.

Fixpoint base64 (l : list byte) : string :=
  match l with
  | [] => EmptyString
  | [a] =>
      let x := Byte.to_N a in
      digit (x / 4) ++ digit ((x mod 4) * 16) ++ "=="
  | [a; b] =>
      let x := Byte.to_N a in
      let y := Byte.to_N b in
      digit (x / 4) ++ digit ((x mod 4) * 16 + y / 16)
        ++ digit ((y mod 16) * 4) ++ "="
  | a :: b :: c :: rest =>
      let x := Byte.to_N a in
      let y := Byte.to_N b in
      let z := Byte.to_N c in
      digit (x / 4) ++ digit ((x mod 4) * 16 + y / 16)
        ++ digit ((y mod 16) * 4 + z / 64) ++ digit (z mod 64)
        ++ base64 rest
  end%N.

Definition dquote : string := String (ascii_of_nat 34) EmptyString.

Definition quote (s : string) : string := dquote ++ s ++ dquote.

Fixpoint stringify (v : json) : string :=
  match v with
  | JNull => "null"
  | JBool true => "true"
  | JBool false => "false"
  | JNum n => pretty n
  | JStr s => quote s
  | JArr items => "[" ++ String.concat "," (List.map stringify items) ++ "]"
  | JObj fields =>
      "{" ++ String.concat ","
               (List.map (fun kv => let '(k, x) := kv in quote k ++ ":" ++ stringify x)
                         fields)
          ++ "}"
  end.

Definition parse_url (path base : string) : option URL :=
  if startsWith "http://" base || startsWith "https://" base
  then Some {| url_location := base ++ path; url_searchParams := []; url_hash := EmptyString |}
  else None.

Definition print_url (u : URL) : string :=
  url_location u
    ++ match url_searchParams u with
       | [] => EmptyString
       | ps => "?" ++ String.concat "&" (List.map (fun p => fst p ++ "=" ++ snd p) ps)
       end
    ++ url_hash u.

Fixpoint last_segment (s : string) : string :=
  match s with
  | EmptyString => EmptyString
  | String c r =>
      if includes "/" r then last_segment r
      else if Ascii.eqb c "/" then r else s
  end.

(** The double of an integer. *)
Definition number (z : Z) : spec_float := binary_normalize 53 1024 z 0 false.

(** The printer of the fixture: zero, the infinities and [NaN] as
    [String] prints them, an integer of magnitude below 10^21 in decimal
    digits, as [String] does.  For the other numbers it prints the digits of
    the integral part, which is not what [String] prints; the runs below
    use small integers only. *)
Definition number_text (n : spec_float) : string :=
  match n with
  | S754_zero _ => "0"
  | S754_infinity false => "Infinity"
  | S754_infinity true => "-Infinity"
  | S754_nan => "NaN"
  | S754_finite negative m e =>
      let magnitude :=
        if 0 <=? e then Z.pos m * 2 ^ e else Z.pos m / 2 ^ (- e) in
      (if negative then "-" else EmptyString) ++ pretty magnitude
  end.

#[global] Instance runtime : Runtime :=
  {| URL_parse := parse_url;
     URL_toString := print_url;
     JSON_stringify := stringify;
     toBase64 := base64;
     basename := last_segment;
     Number_toString := number_text |}.

(** A network that gives the [n]-th request the [n]-th answer of a
    script, and refuses the connection once the script is used up. *)
Definition scripted (answers : list FetchOutcome) : list Request -> Request -> FetchOutcome :=
  fun history _ => nth (length history) answers (Rejected "connection refused").

(** A file system holding one three-byte file. *)
Definition files (path : string) : option (list byte) :=
  if String.eqb path "/tmp/in.csv" then Some [x61; x3b; x62] else None.

Definition host (env : gmap string string) (answers : list FetchOutcome) : Host :=
  {| process_env := env; readFileSync := files; network := scripted answers |}.

Definition answer (status : Z) (ct : option string) (text : option string)
    (parsed : option json) : Response :=
  {| res_status := status; res_content_type := ct; res_text := text;
     res_json := parsed;
     res_arrayBuffer := (fun s => List.map byte_of_ascii (list_ascii_of_string s)) <$> text |}.

(** The process before the first access of the store. *)
Definition fresh : World := {| _config := None; sent := [] |}.

(** Environments: a pre-shared key as token; a token with a refresh
    token. *)
Definition key_env : gmap string string := {[ "STORNO_TOKEN" := "af_xyz" ]}.

Definition session_env : gmap string string :=
  {[ "STORNO_TOKEN" := "old"; "STORNO_REFRESH_TOKEN" := "r1" ]}.

(** Calls: a JSON post, a download, an upload. *)
Definition post_json : RequestOptions :=
  {| opt_method := Some POST; opt_body := Some [("a", JNum 1)];
     opt_query := None; opt_headers := ∅; opt_companyId := None;
     opt_noAuth := false; opt_binary := false; opt_filePath := None;
     opt_fileFieldName := None; opt_formFields := None |}.

Definition download : RequestOptions :=
  {| opt_method := None; opt_body := None;
     opt_query := None; opt_headers := ∅; opt_companyId := None;
     opt_noAuth := false; opt_binary := true; opt_filePath := None;
     opt_fileFieldName := None; opt_formFields := None |}.

Definition upload (filePath : string) : RequestOptions :=
  {| opt_method := Some POST; opt_body := Some [("a", JNum 1)];
     opt_query := None; opt_headers := ∅; opt_companyId := None;
     opt_noAuth := false; opt_binary := false; opt_filePath := Some filePath;
     opt_fileFieldName := None; opt_formFields := Some [("purgeExisting", "true")] |}.

(** Answers: a new token pair, an expired session, a JSON list. *)
Definition new_tokens (t r : string) : Response :=
  answer 200 (Some "application/json") None
         (Some (JObj [("token", JStr t); ("refresh_token", JStr r)])).

Definition expired : Response :=
  answer 401 (Some "application/json") None
         (Some (JObj [("message", JStr "Expired JWT Token")])).

Definition listing : Response :=
  answer 200 (Some "application/json") None (Some (JArr [])).

End Demo.

(* ===================================================================== *)
(** ** utils: pagination and the texts shown for a result *)
(* ===================================================================== *)

Record PaginationParams : Type := {
  page : option spec_float;
  limit : option spec_float
}.

(** An optional number as a query value: absent is [undefined]. *)
Definition query_number (n : option spec_float) : QueryValue :=
  match n with
  | Some n => QNumber n
  | None => QUndefined
  end.

(** [paginationQuery]: the object with the two keys, in this order. *)
Definition paginationQuery (params : PaginationParams) : list (string * QueryValue) :=
  [("page", query_number (page params)); ("limit", query_number (limit params))].

(** [JSON.stringify(v, null, 2)], the indented printer of the platform. *)
Class Printer : Type := {
  JSON_pretty : json -> string
}.

Definition newline : string := String (ascii_of_nat 10) EmptyString.

(** [formatResponse]. *)
Definition formatResponse {pr : Printer} (response : ApiResult) : string :=
  match response with
  | Failure status error details =>
      String.concat (newline ++ newline)
        (("Error " ++ pretty status ++ ": " ++ ToString error)
           :: match details with
              | Some d => if truthy details then [JSON_pretty d] else []
              | None => []
              end)
  | Success _ data => JSON_pretty data
  end.

(** [notAuthenticated]. *)
Definition notAuthenticated : string :=
  String.concat newline
    ["Error: Not authenticated.";
     EmptyString;
     "To authenticate, either:";
     "1. Set STORNO_TOKEN environment variable in MCP server config";
     "2. Call the auth_login tool with email and password";
     "3. Set STORNO_EMAIL and STORNO_PASSWORD env vars for auto-login"].

(** [noCompanySelected]. *)
Definition noCompanySelected : string :=
  String.concat newline
    ["Error: No company selected.";
     EmptyString;
     "To select a company, either:";
     "1. Set STORNO_COMPANY_ID environment variable in MCP server config";
     "2. Call the companies_list tool, then use the company UUID in subsequent calls";
     "3. Most tools accept an optional companyId parameter to override"].

(* ===================================================================== *)
(** ** The tool handlers that read or write the session, and the
       automatic login of [main] *)
(* ===================================================================== *)

(** The options of the three unauthenticated posts. *)
Definition post_unauthenticated (body : list (string * json)) : RequestOptions :=
  {| opt_method := Some POST; opt_body := Some body; opt_query := None;
     opt_headers := ∅; opt_companyId := None; opt_noAuth := true;
     opt_binary := false; opt_filePath := None; opt_fileFieldName := None;
     opt_formFields := None |}.

(** The update [{ token, refreshToken }] with both values named. *)
Definition token_update (token refresh_token : jsval) : PartialConfig :=
  {| set_baseUrl := None; set_token := Some token;
     set_refreshToken := Some refresh_token; set_companyId := None;
     set_email := None; set_password := None |}.

(** [token.substring(0, 20) + '...']. *)
Definition tokenPreview (token : string) : string := substring 0 20 token ++ "...".

Section Tools.

Context {rt : Runtime} {pr : Printer} (host : Host).

(** The end of [auth_login] and of [auth_refresh], once the call
    succeeded with [data]: destructure, store, report.  Destructuring
    [null] throws; so does [substring] on a token that is no string
    (reading a property of [null] or of [undefined], calling what is not
    a function), after the store was written. *)
Definition store_and_report (message : string) (data : json) : M string :=
  match data with
  | JNull => throw (NullPropertyRead "token")
  | _ =>
      let token := js_prop "token" data in
      let refresh_token := js_prop "refresh_token" data in
      let* _ := updateConfig host (token_update token refresh_token) in
      match token with
      | Some (JStr t) =>
          ret (JSON_pretty (JObj [("success", JBool true);
                                  ("message", JStr message);
                                  ("tokenPreview", JStr (tokenPreview t))]))
      | Some JNull => throw (NullPropertyRead "substring")
      | None => throw (NullPropertyRead "substring")
      | Some _ => throw (NotAFunction "substring")
      end
  end.

(** The handler of the tool [auth_login]. *)
Definition auth_login (email password : string) : M string :=
  let* result :=
    apiRequest host "/api/auth"
      (post_unauthenticated [("email", JStr email); ("password", JStr password)]) in
  match result with
  | Failure _ _ _ => ret (formatResponse result)
  | Success _ data =>
      store_and_report "Logged in successfully. Token stored in session." data
  end.

(** The handler of the tool [auth_refresh]; the parameter is optional. *)
Definition auth_refresh (paramToken : option string) : M string :=
  let* config := getConfig host in
  let refreshToken := if present paramToken then js_of paramToken else refreshToken config in
  if negb (truthy refreshToken) then
    ret "Error: No refresh token available. Please login first using auth_login."
  else
    let* result :=
      apiRequest host "/api/auth/token/refresh"
        (post_unauthenticated [("refresh_token", default JNull refreshToken)]) in
    match result with
    | Failure _ _ _ => ret (formatResponse result)
    | Success _ data =>
        store_and_report "Token refreshed successfully. New tokens stored in session." data
    end.

(** The handler of the tool [companies_select]. *)
Definition companies_select (companyId : string) : M string :=
  let* _ := updateConfig host
              {| set_baseUrl := None; set_token := None; set_refreshToken := None;
                 set_companyId := Some (Some companyId); set_email := None;
                 set_password := None |} in
  ret (JSON_pretty (JObj [("success", JBool true);
                          ("message", JStr ("Active company set to: " ++ companyId));
                          ("companyId", JStr companyId)])).

(** [getCompanyId] of the tool modules: the parameter, else the company
    of the session, which is read only then. *)
Definition getCompanyId (param : option string) : M (option string) :=
  if present param then ret param
  else let* config := getConfig host in ret (companyId config).

(** The options of [backup_restore]: the form fields hold
    [purgeExisting] when the parameter is given. *)
Definition restore_options {rt : Runtime} (companyId : option string)
    (filePath : string) (purgeExisting : option bool) : RequestOptions :=
  {| opt_method := Some POST; opt_body := None; opt_query := None;
     opt_headers := ∅; opt_companyId := companyId; opt_noAuth := false;
     opt_binary := false; opt_filePath := Some filePath; opt_fileFieldName := None;
     opt_formFields :=
       Some match purgeExisting with
            | Some b => [("purgeExisting", String_of (QBoolean b))]
            | None => []
            end |}.

(** The handler of the tool [backup_restore]. *)
Definition backup_restore (filePath : string) (purgeExisting : option bool)
    (companyIdParam : option string) : M string :=
  let* config := getConfig host in
  if negb (truthy (token config)) then ret notAuthenticated
  else
    let* companyId := getCompanyId companyIdParam in
    if negb (present companyId) then ret noCompanySelected
    else
      let* result :=
        apiRequest host "/api/v1/backup/restore"
          (restore_options companyId filePath purgeExisting) in
      ret (formatResponse result).

(** The automatic login of [main]: attempted when the session has no
    token but an email and a password. *)
Definition autoLogin : M unit :=
  let* config := getConfig host in
  if negb (truthy (token config)) && present (email config) && present (password config)
  then
    let* res :=
      apiRequest host "/api/auth"
        {| opt_method := Some POST;
           opt_body := Some [("email", JStr (render (email config)));
                             ("password", JStr (render (password config)))];
           opt_query := None; opt_headers := ∅; opt_companyId := None;
           opt_noAuth := true; opt_binary := false; opt_filePath := None;
           opt_fileFieldName := None; opt_formFields := None |} in
    match res with
    | Failure _ _ _ => ret tt
    | Success _ JNull => throw (NullPropertyRead "token")
    | Success _ data =>
        updateConfig host (token_update (js_prop "token" data)
                                        (js_prop "refresh_token" data))
    end
  else ret tt.

End Tools.

(** More of the concrete platform: a printer, and further fixtures. *)
Module Scenario.

#[global] Instance printer : Printer := {| JSON_pretty := Demo.stringify |}.

(** A session with a token and a default company. *)
Definition tenant_env : gmap string string :=
  {[ "STORNO_TOKEN" := "jwt"; "STORNO_COMPANY_ID" := "c-1" ]}.

(** A session with credentials for the automatic login and no token. *)
Definition credentials_env : gmap string string :=
  {[ "STORNO_EMAIL" := "a@b.ro"; "STORNO_PASSWORD" := "secret" ]}.

(** A session whose configured base URL ends in a slash. *)
Definition slash_env : gmap string string :=
  {[ "STORNO_BASE_URL" := "http://localhost:8000/"; "STORNO_TOKEN" := EmptyString ]}.

Definition get_with_company (companyId : string) : RequestOptions :=
  {| opt_method := None; opt_body := None; opt_query := None; opt_headers := ∅;
     opt_companyId := Some companyId; opt_noAuth := false; opt_binary := false;
     opt_filePath := None; opt_fileFieldName := None; opt_formFields := None |}.

Definition server_error : Response :=
  Demo.answer 500 (Some "text/html") (Some "Internal Server Error") None.

(** A platform whose URL parser reads the query string of the path:
    what follows the first question mark, cut at the ampersands, each
    piece cut at its first equals sign. *)
Fixpoint segments (sep : ascii) (s : string) : list string :=
  match s with
  | EmptyString => [EmptyString]
  | String c r =>
      if Ascii.eqb c sep then EmptyString :: segments sep r
      else match segments sep r with
           | x :: rest => String c x :: rest
           | [] => [String c EmptyString]
           end
  end.

Definition parameter (piece : string) : string * string :=
  match segments "=" piece with
  | name :: rest => (name, String.concat "=" rest)
  | [] => (piece, EmptyString)
  end.

Definition parse_url_with_query (path base : string) : option URL :=
  match segments "?" path with
  | [] => None
  | location :: rest =>
      match Demo.parse_url location base with
      | None => None
      | Some u =>
          Some {| url_location := url_location u;
                  url_searchParams :=
                    List.map parameter
                      (List.filter (fun piece => negb (String.eqb piece EmptyString))
                                   (segments "&" (String.concat "?" rest)));
                  url_hash := url_hash u |}
      end
  end.

Definition query_runtime : Runtime :=
  {| URL_parse := parse_url_with_query;
     URL_toString := Demo.print_url;
     JSON_stringify := Demo.stringify;
     toBase64 := Demo.base64;
     basename := Demo.last_segment;
     Number_toString := Demo.number_text |}.

Definition with_query (q : list (string * QueryValue)) : RequestOptions :=
  {| opt_method := None; opt_body := None; opt_query := Some q; opt_headers := ∅;
     opt_companyId := None; opt_noAuth := false; opt_binary := false;
     opt_filePath := None; opt_fileFieldName := None; opt_formFields := None |}.

Definition bad_credentials : Response :=
  Demo.answer 401 (Some "application/json") None
              (Some (JObj [("message", JStr "Invalid credentials.")])).

End Scenario.

(* ===================================================================== *)
(** ** Properties of the store *)
(* ===================================================================== *)

Section StoreProperties.

Context {rt : Runtime} (host : Host).

Lemma getConfig_eq w : getConfig host w = (Returned (current host w), settled host w).
Proof.
  unfold getConfig, current, settled.
  destruct w as [[c|] s]; reflexivity.
Qed.

Lemma updateConfig_eq u w :
  updateConfig host u w
  = (Returned tt, {| _config := Some (assign (current host w) u); sent := sent w |}).
Proof. unfold updateConfig, bind. rewrite getConfig_eq. reflexivity. Qed.

End StoreProperties.

(** C9, as amended.  The base URL is fixed by the first read of the store,
    from the configured value with one trailing slash removed; a later
    read returns the same record and leaves the store as it is; after an
    update the base URL is the value the partial record names, and the
    one it was when the partial record names none. *)
Theorem baseUrl_set_once_then_framed :
  forall (host : Host) (w : World) (u : PartialConfig),
    let c := current host w in
    let w1 := snd (getConfig host w) in
    let w2 := snd (updateConfig host u w1) in
    fst (getConfig host w) = Returned c
    /\ baseUrl (current host {| _config := None; sent := sent w |})
       = strip_trailing_slash
           (render (or_else (process_env host !! "STORNO_BASE_URL")
                            (Some "https://api.storno.ro")))
    /\ getConfig host w1 = (Returned c, w1)
    /\ read_baseUrl host w1 = Some (baseUrl c)
    /\ read_baseUrl host w2 = Some (default (baseUrl c) (set_baseUrl u)).
Proof.
  intros host w u c w1 w2. subst c w1 w2. unfold read_baseUrl.
  rewrite updateConfig_eq, !getConfig_eq. cbn [fst snd].
  repeat split.
Qed.

(** C9, as stated, fails: an update naming [baseUrl] replaces the value
    the first read had fixed, and the new value keeps its trailing
    slash. *)
Lemma updateConfig_replaces_baseUrl :
  let host := Demo.host ∅ [] in
  let u := {| set_baseUrl := Some "http://localhost:8000/"; set_token := None;
              set_refreshToken := None; set_companyId := None;
              set_email := None; set_password := None |} in
  let w1 := snd (getConfig host Demo.fresh) in
  let w2 := snd (updateConfig host u w1) in
  read_baseUrl host w1 = Some "https://api.storno.ro"
  /\ read_baseUrl host w2 = Some "http://localhost:8000/"
  /\ read_baseUrl host w2 <> read_baseUrl host w1.
Proof.
  vm_compute. repeat split. discriminate.
Qed.

(* ===================================================================== *)
(** ** Properties of the query string *)
(* ===================================================================== *)

Section QueryProperties.

Context {rt : Runtime}.

Implicit Types (k v : string) (ps : list (string * string)).

Lemma named_true k p : named k p = true <-> fst p = k.
Proof. unfold named. apply String.eqb_eq. Qed.

Lemma named_false k p : named k p = false <-> fst p <> k.
Proof. unfold named. apply String.eqb_neq. Qed.

Lemma filter_named_removed k ps :
  List.filter (named k) (List.filter (fun q => negb (named k q)) ps) = [].
Proof.
  induction ps as [|p ps IH]; [reflexivity|].
  cbn [searchParams_set List.filter negb]. destruct (named k p) eqn:E; cbn [searchParams_set List.filter negb]; [exact IH|].
  rewrite E. exact IH.
Qed.

Lemma filter_named_other k k' ps :
  k' <> k ->
  List.filter (named k') (List.filter (fun q => negb (named k q)) ps)
  = List.filter (named k') ps.
Proof.
  intros Hne. induction ps as [|p ps IH]; [reflexivity|].
  cbn [searchParams_set List.filter negb]. destruct (named k p) eqn:E; cbn [searchParams_set List.filter negb].
  - apply named_true in E.
    assert (named k' p = false) as -> by (apply named_false; congruence).
    exact IH.
  - destruct (named k' p); [f_equal|]; exact IH.
Qed.

(** After [set], exactly one entry carries the name. *)
Lemma searchParams_set_same k v ps :
  List.filter (named k) (searchParams_set k v ps) = [(k, v)].
Proof.
  assert (Hk : named k (k, v) = true) by (apply named_true; reflexivity).
  induction ps as [|p ps IH]; cbn [searchParams_set List.filter negb].
  - rewrite Hk. reflexivity.
  - destruct (named k p) eqn:E; cbn [searchParams_set List.filter negb].
    + rewrite Hk, filter_named_removed. reflexivity.
    + rewrite E. exact IH.
Qed.

(** [set] leaves the entries of every other name as they were. *)
Lemma searchParams_set_other k k' v ps :
  k' <> k ->
  List.filter (named k') (searchParams_set k v ps) = List.filter (named k') ps.
Proof.
  intros Hne.
  assert (Hk : named k' (k, v) = false) by (apply named_false; cbn; congruence).
  induction ps as [|p ps IH]; cbn [searchParams_set List.filter negb].
  - rewrite Hk. reflexivity.
  - destruct (named k p) eqn:E; cbn [searchParams_set List.filter negb].
    + apply named_true in E.
      assert (named k' p = false) as -> by (apply named_false; congruence).
      rewrite Hk. apply filter_named_other, Hne.
    + destruct (named k' p); [f_equal|]; exact IH.
Qed.

Lemma apply_query_cons k0 (v0 : QueryValue) (q : list (string * QueryValue)) ps :
  apply_query ((k0, v0) :: q) ps
  = apply_query q (if query_keep v0 then searchParams_set k0 (String_of v0) ps else ps).
Proof. reflexivity. Qed.

(** A name that is not a key of the query object is not touched. *)
Lemma apply_query_absent (q : list (string * QueryValue)) ps k :
  k ∉ q.*1 ->
  List.filter (named k) (apply_query q ps) = List.filter (named k) ps.
Proof.
  revert ps. induction q as [|[k0 v0] q IH]; intros ps Hk; [reflexivity|].
  cbn in Hk. apply not_elem_of_cons in Hk as [Hne Hk].
  rewrite apply_query_cons.
  rewrite IH by exact Hk.
  destruct (query_keep v0); [|reflexivity].
  apply searchParams_set_other, Hne.
Qed.

Lemma apply_query_entry (q : list (string * QueryValue)) ps k x :
  NoDup q.*1 ->
  (k, x) ∈ q ->
  List.filter (named k) (apply_query q ps)
  = if query_keep x then [(k, String_of x)] else List.filter (named k) ps.
Proof.
  revert ps. induction q as [|[k0 v0] q IH]; intros ps Hnd Hin.
  - inversion Hin.
  - cbn in Hnd. apply NoDup_cons in Hnd as [Hfresh Hnd].
    rewrite apply_query_cons.
    apply elem_of_cons in Hin as [Heq|Hin].
    + inversion Heq; subst k0 v0.
      rewrite apply_query_absent by exact Hfresh.
      destruct (query_keep x); [|reflexivity].
      apply searchParams_set_same.
    + assert (Hne : k <> k0).
      { intros ->. apply Hfresh. apply list_elem_of_fmap. exists (k0, x). split; [reflexivity|exact Hin]. }
      rewrite (IH _ Hnd Hin).
      destruct (query_keep x); [reflexivity|].
      destruct (query_keep v0); [|reflexivity].
      apply searchParams_set_other, Hne.
Qed.

(** A name has no entry exactly when it is not among the names. *)
Lemma filter_named_nil k ps : List.filter (named k) ps = [] <-> k ∉ ps.*1.
Proof.
  induction ps as [|p ps IH]; cbn [List.filter fmap list_fmap].
  - split; [intros _; apply not_elem_of_nil|reflexivity].
  - rewrite not_elem_of_cons. destruct (named k p) eqn:E.
    + apply named_true in E. split; [discriminate|]. intros [Hne _]. congruence.
    + apply named_false in E. rewrite IH. split; [intros H; split; [congruence|exact H]|].
      intros [_ H]. exact H.
Qed.

End QueryProperties.

(** C7, as amended.  For a query object, whose keys are distinct: a key
    whose value is neither [undefined], [null] nor the empty string has
    exactly one entry in the query string of the built URL, replacing
    what the path carried under that name, and its value is the string
    itself, [true] or [false] for a boolean, and what the platform prints
    for a number.  For a key whose value is one of the three the loop adds
    nothing: the built URL has under that name exactly the entries the
    path itself carried, so the key is excluded whenever the path carries
    none of that name, as for every path without query string. *)
Theorem query_string_of_built_url :
  forall (rt : Runtime) (config : Config) (path : string) (o : RequestOptions)
         (q : list (string * QueryValue)) (url : URL) (w w' : World),
    opt_query o = Some q ->
    NoDup q.*1 ->
    build_url config path o w = (Returned url, w') ->
    exists url0,
      URL_parse path (baseUrl config) = Some url0
      /\ (forall k x, (k, x) ∈ q ->
            let entries := List.filter (named k) (url_searchParams url) in
            let carried := List.filter (named k) (url_searchParams url0) in
            match x with
            | QUndefined => entries = carried
            | QNull => entries = carried
            | QString s =>
                if String.eqb s EmptyString then entries = carried
                else entries = [(k, s)]
            | QNumber n => entries = [(k, Number_toString n)]
            | QBoolean true => entries = [(k, "true")]
            | QBoolean false => entries = [(k, "false")]
            end)
      /\ (forall k x, (k, x) ∈ q ->
            query_keep x = false ->
            k ∉ (url_searchParams url0).*1 ->
            k ∉ (url_searchParams url).*1).
Proof.
  intros rt config path o q url w w' Hq Hnd Hbuild.
  unfold build_url in Hbuild.
  destruct (URL_parse path (baseUrl config)) as [url0|] eqn:Hparse;
    [|discriminate].
  exists url0. split; [reflexivity|].
  rewrite Hq in Hbuild. unfold ret in Hbuild.
  inversion Hbuild; subst; cbn [url_searchParams]. split.
  - intros k x Hin. cbv zeta.
    rewrite (apply_query_entry _ _ _ _ Hnd Hin).
    destruct x as [| |s|n|[]]; cbn [query_keep String_of]; try reflexivity.
    destruct (String.eqb s EmptyString); reflexivity.
  - intros k x Hin Hdrop Hfree.
    apply (proj1 (filter_named_nil k _)).
    rewrite (apply_query_entry _ _ _ _ Hnd Hin), Hdrop.
    apply (proj2 (filter_named_nil k _)), Hfree.
Qed.

Lemma query_string_of_built_url_witness :
  let config := initial_config ∅ in
  let q := [("page", QNumber (Demo.number 1)); ("limit", QUndefined);
            ("search", QString EmptyString); ("active", QBoolean true)] in
  let url := {| url_location := "https://api.storno.ro/api/v1/invoices";
                url_searchParams := [("page", "1"); ("active", "true")];
                url_hash := EmptyString |} in
  List.filter (named "page") (url_searchParams url) = [("page", "1")]
  /\ List.filter (named "active") (url_searchParams url) = [("active", "true")]
  /\ ("limit" ∉ (url_searchParams url).*1)
  /\ ("search" ∉ (url_searchParams url).*1).
Proof.
  intros config q url.
  destruct (query_string_of_built_url Demo.runtime config "/api/v1/invoices"
              (Scenario.with_query q) q url Demo.fresh Demo.fresh)
    as (url0 & Hparse & Hentries & Hexcluded).
  - reflexivity.
  - apply (bool_decide_unpack _). vm_compute. exact I.
  - vm_compute. reflexivity.
  - injection Hparse as <-.
    split; [exact (Hentries "page" (QNumber (Demo.number 1)) ltac:(set_solver))|].
    split; [exact (Hentries "active" (QBoolean true) ltac:(set_solver))|].
    split.
    + apply (Hexcluded "limit" QUndefined); [set_solver|reflexivity|].
      apply not_elem_of_nil.
    + apply (Hexcluded "search" (QString EmptyString)); [set_solver|reflexivity|].
      apply not_elem_of_nil.
Defined.

(** C7, as stated, fails: a key whose value is the empty string is still
    in the query string of the built URL when the path itself carries a
    parameter of that name, since the loop leaves the parameters of the
    path alone. *)
Lemma dropped_key_of_path_survives :
  let config := initial_config ∅ in
  let q := [("search", QString EmptyString)] in
  let built := @build_url Scenario.query_runtime config
                 "/api/v1/clients?search=acme" (Scenario.with_query q) Demo.fresh in
  query_keep (QString EmptyString) = false
  /\ exists url,
       fst built = Returned url
       /\ url_searchParams url = [("search", "acme")]
       /\ ("search" ∈ (url_searchParams url).*1)
       /\ @URL_toString Scenario.query_runtime url
          = "https://api.storno.ro/api/v1/clients?search=acme".
Proof.
  split; [reflexivity|]. eexists.
  split; [vm_compute; reflexivity|].
  split; [reflexivity|]. split; [|vm_compute; reflexivity].
  cbn. apply list_elem_of_here.
Qed.

(* ===================================================================== *)
(** ** Properties of the executor *)
(* ===================================================================== *)

Section ExecutorProperties.

Context {rt : Runtime} (host : Host).

Lemma fetch_eq r w :
  fetch host r w
  = (Returned (network host (sent w) r),
     {| _config := _config w; sent := sent w ++ [r] |}).
Proof. reflexivity. Qed.

Lemma build_url_stateless config path o :
  exists out, forall w, build_url config path o w = (out, w).
Proof.
  unfold build_url. destruct (URL_parse path (baseUrl config)); eexists; reflexivity.
Qed.

Lemma auth_header_stateless config o h :
  exists out, forall w, auth_header config o h w = (out, w).
Proof.
  unfold auth_header.
  destruct (negb (opt_noAuth o) && truthy (token config));
    [destruct (token config) as [[]|]|]; eexists; reflexivity.
Qed.

Lemma build_body_stateless h o :
  exists out, forall w, build_body host h o w = (out, w).
Proof.
  unfold build_body.
  destruct (present (opt_filePath o));
    [destruct (readFileSync host _)|destruct (opt_body o)]; eexists; reflexivity.
Qed.

(** Building a request touches the world only by creating the store. *)
Lemma build_request_settles path o w out w' :
  build_request host path o w = (out, w') -> w' = settled host w.
Proof.
  unfold build_request, bind. rewrite getConfig_eq.
  destruct (build_url_stateless (current host w) path o) as [o1 ->].
  destruct o1 as [url|e]; [|intros [= <- <-]; reflexivity].
  destruct (auth_header_stateless (current host w) o (opt_headers o)) as [o2 ->].
  destruct o2 as [h|e]; [|intros [= <- <-]; reflexivity].
  destruct (build_body_stateless (company_header (current host w) o h) o) as [o3 ->].
  destruct o3 as [hb|e]; intros [= <- <-]; reflexivity.
Qed.

(** What a refresh does when the session holds a refresh token: one
    request to the refresh endpoint, and the update its answer leads
    to. *)
Lemma refreshAccessToken_eq w :
  truthy (refreshToken (current host w)) = true ->
  let c := current host w in
  let rq := refresh_request c in
  refreshAccessToken host w
  = match refresh_update (network host (sent w) rq) with
    | Some u => (Returned true, {| _config := Some (assign c u); sent := sent w ++ [rq] |})
    | None => (Returned false, {| _config := Some c; sent := sent w ++ [rq] |})
    end.
Proof.
  intros Hrt c rq. subst c rq. unfold refreshAccessToken, bind.
  rewrite getConfig_eq, Hrt. cbn [negb].
  rewrite fetch_eq. cbn [sent settled].
  unfold refresh_update.
  destruct (network host (sent w) _) as [res|m]; [|reflexivity].
  destruct (res_ok res); cbn [negb]; [|reflexivity].
  destruct (res_json res) as [data|]; [|reflexivity].
  destruct data; try reflexivity.
Qed.

(** The exchange, once the request is built: the first [fetch], the
    refresh when it applies, and the single retry. *)
Lemma exchange_eq path o w req w1 :
  build_request host path o w = (Returned req, w1) ->
  let c := current host w in
  let rq := refresh_request c in
  exchange host path o w
  = match network host (sent w) req with
    | Rejected m =>
        (Returned (inl (network_failure "Network error: " m)),
         {| _config := Some c; sent := sent w ++ [req] |})
    | Responded r0 =>
        if (res_status r0 =? 401) && negb (opt_noAuth o) && truthy (refreshToken c)
        then
          match refresh_update (network host (sent w ++ [req]) rq) with
          | None =>
              (Returned (inr r0),
               {| _config := Some c; sent := (sent w ++ [req]) ++ [rq] |})
          | Some u =>
              let c' := assign c u in
              let req' := with_authorization ("Bearer " ++ template (token c')) req in
              (Returned
                 match network host ((sent w ++ [req]) ++ [rq]) req' with
                 | Rejected m =>
                     inl (network_failure "Network error after token refresh: " m)
                 | Responded r1 => inr r1
                 end,
               {| _config := Some c'; sent := ((sent w ++ [req]) ++ [rq]) ++ [req'] |})
          end
        else (Returned (inr r0), {| _config := Some c; sent := sent w ++ [req] |})
    end.
Proof.
  intros Hbuild c rq.
  pose proof (build_request_settles _ _ _ _ _ Hbuild) as ->.
  unfold exchange, bind. rewrite Hbuild, fetch_eq. cbn [sent settled _config].
  destruct (network host (sent w) req) as [r0|m]; [|reflexivity].
  cbn [getConfig _config]. fold c.
  destruct ((res_status r0 =? 401) && negb (opt_noAuth o) && truthy (refreshToken c))
    eqn:Hcond; [|reflexivity].
  apply andb_prop in Hcond as [_ Hrt].
  rewrite refreshAccessToken_eq by exact Hrt.
  unfold current at 1 2 3. cbn [sent _config default]. fold c. fold rq.
  destruct (refresh_update _) as [u|]; [|reflexivity].
  cbn [getConfig _config]. rewrite fetch_eq. cbn [sent _config].
  destruct (network host _ _); reflexivity.
Qed.

Lemma apiRequest_eq path o w :
  apiRequest host path o w
  = match exchange host path o w with
    | (Returned (inl result), w') => (Returned result, w')
    | (Returned (inr res), w') => (parseResponse (opt_binary o) res, w')
    | (Thrown e, w') => (Thrown e, w')
    end.
Proof.
  unfold apiRequest, bind.
  destruct (exchange host path o w) as [[[result|res]|e] w']; reflexivity.
Qed.

(** The parts a built request is made of. *)
Lemma build_request_inv path o w req w1 :
  build_request host path o w = (Returned req, w1) ->
  let c := current host w in
  exists url h,
    (forall w0, build_url c path o w0 = (Returned url, w0))
    /\ (forall w0, auth_header c o (opt_headers o) w0 = (Returned h, w0))
    /\ (forall w0, build_body host (company_header c o h) o w0
                   = (Returned (req_headers req, req_body req), w0))
    /\ req_url req = URL_toString url
    /\ req_method req = default GET (opt_method o).
Proof.
  intros Hbuild c. revert Hbuild. unfold build_request, bind.
  rewrite getConfig_eq. fold c.
  destruct (build_url_stateless c path o) as [o1 H1]. rewrite H1.
  destruct o1 as [url|e]; [|discriminate].
  destruct (auth_header_stateless c o (opt_headers o)) as [o2 H2]. rewrite H2.
  destruct o2 as [h|e]; [|discriminate].
  destruct (build_body_stateless (company_header c o h) o) as [o3 H3]. rewrite H3.
  destruct o3 as [[hs b]|e]; [|discriminate].
  unfold ret. intros [= <- <-]. exists url, h. cbn [req_headers req_body fst snd].
  repeat split; assumption.
Qed.

Lemma auth_header_authorization c o h0 h w t :
  auth_header c o h0 w = (Returned h, w) ->
  opt_noAuth o = false ->
  token c = Some (JStr t) ->
  t <> EmptyString ->
  h !! "Authorization" = Some (authorization t).
Proof.
  unfold auth_header. intros Hh Hno Htok Ht.
  apply String.eqb_neq in Ht.
  rewrite Hno, Htok in Hh. cbn [truthy negb andb] in Hh. rewrite Ht in Hh.
  cbn [negb] in Hh. unfold ret in Hh. injection Hh as <-. apply lookup_insert_eq.
Qed.

Lemma auth_header_other c o h0 h w key :
  auth_header c o h0 w = (Returned h, w) ->
  key <> "Authorization" ->
  h !! key = h0 !! key.
Proof.
  unfold auth_header. intros Hh Hkey.
  destruct (negb (opt_noAuth o) && truthy (token c)).
  - destruct (token c) as [[]|]; try discriminate.
    unfold ret in Hh. injection Hh as <-. apply lookup_insert_ne. congruence.
  - unfold ret in Hh. injection Hh as <-. reflexivity.
Qed.

Lemma company_header_other c o h key :
  key <> "X-Company" ->
  company_header c o h !! key = h !! key.
Proof.
  unfold company_header. intros Hkey.
  destruct (present _); [|reflexivity]. apply lookup_insert_ne. congruence.
Qed.

(** The built request is the first one the call sends. *)
Lemma apiRequest_sends_built_request path o w req w1 :
  build_request host path o w = (Returned req, w1) ->
  exists rest, sent (snd (apiRequest host path o w)) = (sent w ++ req :: rest)%list.
Proof.
  intros Hbuild. rewrite apiRequest_eq, (exchange_eq _ _ _ _ _ Hbuild).
  destruct (network host (sent w) req) as [r0|m].
  - destruct (_ && _ && _).
    + destruct (refresh_update _) as [u|].
      * cbn zeta. destruct (network host _ _); cbn [snd sent];
          rewrite <- !app_assoc; eexists; reflexivity.
      * cbn [snd sent]. rewrite <- !app_assoc. eexists; reflexivity.
    + cbn [snd sent]. eexists; reflexivity.
  - cbn [snd sent]. eexists; reflexivity.
Qed.

End ExecutorProperties.

(** C3.  With [noAuth] unset and a token in the session, the request the
    executor builds, which is the first one it sends, carries the token
    itself as [Authorization] when the token starts with [af_], and
    [Bearer] followed by the token otherwise. *)
Theorem authorization_of_initial_request :
  forall (rt : Runtime) (host : Host) (path : string) (o : RequestOptions)
         (w w1 : World) (req : Request) (t : string),
    opt_noAuth o = false ->
    token (current host w) = Some (JStr t) ->
    t <> EmptyString ->
    build_request host path o w = (Returned req, w1) ->
    req_headers req !! "Authorization"
    = Some (if startsWith "af_" t then t else "Bearer " ++ t)
    /\ exists rest, sent (snd (apiRequest host path o w)) = (sent w ++ req :: rest)%list.
Proof.
  intros rt host path o w w1 req t Hno Htok Ht Hbuild.
  split; [|eapply apiRequest_sends_built_request; exact Hbuild].
  destruct (build_request_inv host _ _ _ _ _ Hbuild) as (url & h & _ & Hauth & Hbody & _).
  specialize (Hauth w). specialize (Hbody w).
  pose proof (auth_header_authorization _ _ _ _ _ _ Hauth Hno Htok Ht) as Hlook.
  assert (Hc : company_header (current host w) o h !! "Authorization"
               = Some (authorization t)).
  { rewrite company_header_other by discriminate. exact Hlook. }
  revert Hbody. unfold build_body, ret, throw.
  destruct (present (opt_filePath o)).
  - destruct (readFileSync host _); [|discriminate].
    intros [= <- _]. exact Hc.
  - destruct (opt_body o).
    + intros [= <- _]. rewrite lookup_insert_ne by discriminate. exact Hc.
    + intros [= <- _]. exact Hc.
Qed.


Lemma authorization_of_initial_request_witness :
  let host := Demo.host Demo.key_env [] in
  exists req w1,
    build_request host "/api/v1/clients" Demo.post_json Demo.fresh = (Returned req, w1)
    /\ req_body req = TextBody (Demo.stringify (JObj [("a", JNum 1)]))
    /\ req_headers req !! "Authorization" = Some "af_xyz"
    /\ exists rest,
         sent (snd (apiRequest host "/api/v1/clients" Demo.post_json Demo.fresh))
         = req :: rest.
Proof.
  intros host. eexists _, _.
  split; [vm_compute; reflexivity|].
  split; [reflexivity|].
  eapply (authorization_of_initial_request Demo.runtime host "/api/v1/clients"
           Demo.post_json Demo.fresh _ _ "af_xyz").
  - reflexivity.
  - vm_compute. reflexivity.
  - discriminate.
  - vm_compute. reflexivity.
Defined.

(** C8.  The body of a built request is exactly one of three.  With a
    file path: the multipart form holding the file under the configured
    field name, [file] by default, followed by the extra form fields; a
    JSON body given as well is ignored, and [Content-Type] is whatever the
    caller supplied, the executor sets none.  Without a file path and with
    a JSON body: the serialised body, with [Content-Type:
    application/json].  With neither: no body. *)
Theorem request_body_one_of_three :
  forall (rt : Runtime) (host : Host) (path : string) (o : RequestOptions)
         (w w1 : World) (req : Request),
    build_request host path o w = (Returned req, w1) ->
    if present (opt_filePath o) then
      exists content,
        readFileSync host (render (opt_filePath o)) = Some content
        /\ req_body req
           = FormBody (FilePart (default "file" (opt_fileFieldName o)) content
                                (basename (render (opt_filePath o)))
                         :: List.map (fun kv => FieldPart (fst kv) (snd kv))
                                     (default [] (opt_formFields o)))
        /\ req_headers req !! "Content-Type" = opt_headers o !! "Content-Type"
    else
      match opt_body o with
      | Some body =>
          req_body req = TextBody (JSON_stringify (JObj body))
          /\ req_headers req !! "Content-Type" = Some "application/json"
      | None =>
          req_body req = NoBody
          /\ req_headers req !! "Content-Type" = opt_headers o !! "Content-Type"
      end.
Proof.
  intros rt host path o w w1 req Hbuild.
  destruct (build_request_inv host _ _ _ _ _ Hbuild) as (url & h & _ & Hauth & Hbody & _).
  specialize (Hauth w). specialize (Hbody w).
  assert (Hct : company_header (current host w) o h !! "Content-Type"
                = opt_headers o !! "Content-Type").
  { rewrite company_header_other by discriminate.
    eapply auth_header_other; [exact Hauth|discriminate]. }
  revert Hbody. unfold build_body, ret, throw, form_data.
  destruct (present (opt_filePath o)).
  - destruct (readFileSync host _) as [content|]; [|discriminate].
    intros [= Hh Hb]. exists content. rewrite <- Hh, <- Hb. auto.
  - destruct (opt_body o) as [body|]; intros [= Hh Hb]; rewrite <- Hh, <- Hb.
    + split; [reflexivity|]. apply lookup_insert_eq.
    + auto.
Qed.

Lemma request_body_one_of_three_witness :
  let host := Demo.host Demo.key_env [] in
  exists req w1,
    build_request host "/api/v1/backup/restore" (Demo.upload "/tmp/in.csv") Demo.fresh
    = (Returned req, w1)
    /\ req_body req
       = FormBody [FilePart "file" [x61; x3b; x62] "in.csv";
                   FieldPart "purgeExisting" "true"]
    /\ req_headers req !! "Content-Type" = None.
Proof.
  intros host. eexists _, _.
  split; [vm_compute; reflexivity|].
  destruct (request_body_one_of_three Demo.runtime host "/api/v1/backup/restore"
              (Demo.upload "/tmp/in.csv") Demo.fresh _ _ eq_refl)
    as (content & Hread & Hbody & Hct).
  injection Hread as <-. split; [exact Hbody|exact Hct].
Defined.

(** C5, as amended.  When the caller does not expect binary data and the
    response that reaches normalisation, retried or not, has status 204,
    the executor returns [Success] with status 204 and data [null],
    whatever the content type of the response. *)
Theorem no_content_yields_null :
  forall (rt : Runtime) (host : Host) (path : string) (o : RequestOptions)
         (w w' : World) (res : Response),
    opt_binary o = false ->
    exchange host path o w = (Returned (inr res), w') ->
    res_status res = 204 ->
    apiRequest host path o w = (Returned (Success 204 JNull), w').
Proof.
  intros rt host path o w w' res Hbin Hex Hst.
  rewrite apiRequest_eq, Hex, Hbin. unfold parseResponse.
  rewrite Hst. reflexivity.
Qed.

Lemma no_content_yields_null_witness :
  let host := Demo.host Demo.key_env [Responded (Demo.answer 204 None None None)] in
  exists w',
    apiRequest host "/api/v1/clients/7" Demo.post_json Demo.fresh
    = (Returned (Success 204 JNull), w').
Proof.
  intros host. eexists.
  eapply (no_content_yields_null Demo.runtime host "/api/v1/clients/7" Demo.post_json
            Demo.fresh _ (Demo.answer 204 None None None)).
  - reflexivity.
  - vm_compute. reflexivity.
  - reflexivity.
Defined.

(** C5, as stated, fails: a caller that expects binary data and receives
    status 204 gets the base64 wrapper as data, not [null]. *)
Lemma binary_no_content_is_wrapped :
  let res := Demo.answer 204 None (Some EmptyString) None in
  let host := Demo.host Demo.key_env [Responded res] in
  let run := apiRequest host "/api/v1/invoices/7/pdf" Demo.download Demo.fresh in
  fst (exchange host "/api/v1/invoices/7/pdf" Demo.download Demo.fresh)
  = Returned (inr res)
  /\ res_status res = 204
  /\ fst run = Returned (Success 204 (JObj [("base64", JStr EmptyString);
                                           ("contentType", JNull)]))
  /\ fst run <> Returned (Success 204 JNull).
Proof.
  vm_compute. repeat split. discriminate.
Qed.

(** C6.  When the caller does not expect binary data and the response
    that reaches normalisation has a status other than 204 and a content
    type containing [application/json], but its body does not parse as
    JSON, the executor returns [Failure] with the status of the response
    and the message [Failed to parse JSON response]; whether the status is
    an OK one plays no part. *)
Theorem unparseable_json_is_failure :
  forall (rt : Runtime) (host : Host) (path : string) (o : RequestOptions)
         (w w' : World) (res : Response),
    opt_binary o = false ->
    exchange host path o w = (Returned (inr res), w') ->
    res_status res <> 204 ->
    includes "application/json" (default EmptyString (res_content_type res)) = true ->
    res_json res = None ->
    apiRequest host path o w
    = (Returned (Failure (res_status res) (JStr "Failed to parse JSON response") None),
       w').
Proof.
  intros rt host path o w w' res Hbin Hex Hst Hct Hjson.
  rewrite apiRequest_eq, Hex, Hbin. unfold parseResponse.
  apply Z.eqb_neq in Hst. rewrite Hst, Hct, Hjson. reflexivity.
Qed.

Lemma unparseable_json_is_failure_witness :
  let res := Demo.answer 200 (Some "application/json; charset=utf-8")
                         (Some "<html>") None in
  let host := Demo.host Demo.key_env [Responded res] in
  exists w',
    apiRequest host "/api/v1/clients" Demo.post_json Demo.fresh
    = (Returned (Failure 200 (JStr "Failed to parse JSON response") None), w').
Proof.
  intros res host. eexists.
  eapply (unparseable_json_is_failure Demo.runtime host "/api/v1/clients"
            Demo.post_json Demo.fresh _ res).
  - reflexivity.
  - vm_compute. reflexivity.
  - discriminate.
  - reflexivity.
  - reflexivity.
Defined.

(* ===================================================================== *)
(** ** The refresh protocol *)
(* ===================================================================== *)

Section RefreshProperties.

Context {rt : Runtime} (host : Host).

(** The situation the protocol starts from: the request was built and
    sent, and the answer is a 401 with a refresh token in the
    session. *)
Lemma exchange_on_401 path o w req w1 w2 r0 :
  build_request host path o w = (Returned req, w1) ->
  fetch host req w1 = (Returned (Responded r0), w2) ->
  res_status r0 = 401 ->
  opt_noAuth o = false ->
  truthy (refreshToken (current host w2)) = true ->
  let c := current host w in
  let rq := refresh_request c in
  w2 = {| _config := Some c; sent := sent w ++ [req] |}
  /\ exchange host path o w
     = match refresh_update (network host (sent w2) rq) with
       | None =>
           (Returned (inr r0), {| _config := Some c; sent := sent w2 ++ [rq] |})
       | Some u =>
           let c' := assign c u in
           let req' := with_authorization ("Bearer " ++ template (token c')) req in
           (Returned
              match network host (sent w2 ++ [rq]) req' with
              | Rejected m =>
                  inl (network_failure "Network error after token refresh: " m)
              | Responded r1 => inr r1
              end,
            {| _config := Some c'; sent := (sent w2 ++ [rq]) ++ [req'] |})
       end.
Proof.
  intros Hbuild Hfetch Hst Hno Hrt c rq. subst c rq.
  pose proof (build_request_settles _ _ _ _ _ _ Hbuild) as ->.
  rewrite fetch_eq in Hfetch. cbn [sent settled _config] in Hfetch.
  injection Hfetch as Hnet <-. split; [reflexivity|].
  assert (Hrt' : truthy (refreshToken (current host w)) = true) by exact Hrt.
  rewrite (exchange_eq _ _ _ _ _ _ Hbuild). cbv zeta.
  rewrite Hnet, Hst, Hno, Hrt'. reflexivity.
Qed.

(** A successful refresh followed by the single retry. *)
Lemma apiRequest_refreshed path o w req w1 w2 r0 w3 :
  build_request host path o w = (Returned req, w1) ->
  fetch host req w1 = (Returned (Responded r0), w2) ->
  res_status r0 = 401 ->
  opt_noAuth o = false ->
  truthy (refreshToken (current host w2)) = true ->
  refreshAccessToken host w2 = (Returned true, w3) ->
  let rq := refresh_request (current host w2) in
  let req' :=
    with_authorization ("Bearer " ++ template (token (current host w3))) req in
  sent w3 = (sent w ++ [req; rq])%list
  /\ apiRequest host path o w
     = (match network host (sent w3) req' with
        | Responded r1 => parseResponse (opt_binary o) r1
        | Rejected m =>
            Returned (network_failure "Network error after token refresh: " m)
        end,
        {| _config := _config w3; sent := sent w3 ++ [req'] |}).
Proof.
  intros Hbuild Hfetch Hst Hno Hrt Href rq req'. subst rq req'.
  destruct (exchange_on_401 _ _ _ _ _ _ _ Hbuild Hfetch Hst Hno Hrt) as [Hw2 Hex].
  rewrite refreshAccessToken_eq in Href by exact Hrt.
  rewrite apiRequest_eq, Hex. subst w2.
  cbn [sent _config current default] in *.
  destruct (refresh_update _) as [u|]; [|discriminate].
  injection Href as <-. cbn [sent _config current default].
  split; [rewrite <- app_assoc; reflexivity|].
  destruct (network host _ _); reflexivity.
Qed.

(** A failed refresh: the original answer is the one normalised, and
    the session is as it was. *)
Lemma apiRequest_unrefreshed path o w req w1 w2 r0 w3 :
  build_request host path o w = (Returned req, w1) ->
  fetch host req w1 = (Returned (Responded r0), w2) ->
  res_status r0 = 401 ->
  opt_noAuth o = false ->
  truthy (refreshToken (current host w2)) = true ->
  refreshAccessToken host w2 = (Returned false, w3) ->
  sent w3 = (sent w ++ [req; refresh_request (current host w2)])%list
  /\ _config w3 = _config w2
  /\ apiRequest host path o w = (parseResponse (opt_binary o) r0, w3).
Proof.
  intros Hbuild Hfetch Hst Hno Hrt Href.
  destruct (exchange_on_401 _ _ _ _ _ _ _ Hbuild Hfetch Hst Hno Hrt) as [Hw2 Hex].
  rewrite refreshAccessToken_eq in Href by exact Hrt.
  rewrite apiRequest_eq, Hex. subst w2.
  cbn [sent _config current default] in *.
  destruct (refresh_update _) as [u|]; [discriminate|].
  injection Href as <-. cbn [sent _config].
  split; [rewrite <- app_assoc; reflexivity|]. split; reflexivity.
Qed.

(** The normalisation of an answer that is not OK yields a [Failure]
    with the status of the answer, provided its body is usable. *)
Lemma parseResponse_not_ok binary res :
  res_ok res = false ->
  body_usable binary res ->
  exists error details,
    parseResponse binary res = Returned (Failure (res_status res) error details).
Proof.
  intros Hok Huse. unfold parseResponse, body_usable in *.
  rewrite Hok. cbn [negb].
  destruct binary; [eauto|].
  destruct (res_status res =? 204) eqn:E.
  { apply Z.eqb_eq in E. unfold res_ok in Hok. rewrite E in Hok. discriminate. }
  destruct (negb (includes _ _)); [eauto|].
  destruct (res_json res) as [data|]; [|eauto].
  destruct data; eauto. exfalso. apply (Huse Hok). reflexivity.
Qed.

(** The normalisation returns for every answer with a usable body:
    a body that does not parse as JSON, or a text that cannot be read,
    gives a value. *)
Lemma parseResponse_returns binary res :
  body_usable binary res ->
  exists result, parseResponse binary res = Returned result.
Proof.
  intros Huse. destruct (res_ok res) eqn:Hok.
  - unfold parseResponse, body_usable in *. rewrite Hok. cbn [negb].
    destruct binary.
    + destruct (Huse Hok) as [buffer ->]. eauto.
    + destruct (res_status res =? 204); [eauto|].
      destruct (negb (includes _ _)); [eauto|].
      destruct (res_json res); eauto.
  - destruct (parseResponse_not_ok binary res Hok Huse) as (error & details & ->).
    eauto.
Qed.

(** A failed refresh, in full: the call returns the [Failure] the
    original 401 normalises to, provided the body of that answer is
    usable, and the session is as it was. *)
Lemma refresh_failure_reports_original path o w req w1 w2 r0 w3 :
  build_request host path o w = (Returned req, w1) ->
  fetch host req w1 = (Returned (Responded r0), w2) ->
  res_status r0 = 401 ->
  opt_noAuth o = false ->
  truthy (refreshToken (current host w2)) = true ->
  refreshAccessToken host w2 = (Returned false, w3) ->
  body_usable (opt_binary o) r0 ->
  exists error details,
    apiRequest host path o w = (Returned (Failure 401 error details), w3)
    /\ parseResponse (opt_binary o) r0 = Returned (Failure 401 error details)
    /\ _config w3 = _config w2.
Proof.
  intros Hbuild Hfetch Hst Hno Hrt Href Huse.
  destruct (apiRequest_unrefreshed _ _ _ _ _ _ _ _ Hbuild Hfetch Hst Hno Hrt Href)
    as (_ & Hcfg & Hrun).
  assert (Hok : res_ok r0 = false) by (unfold res_ok; rewrite Hst; reflexivity).
  destruct (parseResponse_not_ok _ _ Hok Huse) as (error & details & Hparse).
  rewrite Hst in Hparse. exists error, details.
  rewrite Hrun, Hparse. auto.
Qed.

End RefreshProperties.

(** C1.  When the first answer is a 401, authentication is not bypassed,
    the session holds a refresh token and the refresh succeeds, the call
    sends exactly three requests, in this order: the original request,
    one request to the refresh endpoint, and one retry, which goes to the
    URL of the original with its method and body.  The outcome of the
    call is the normalisation of what the retry brought, or the failure
    of its transport; the original 401 plays no part in it.  Whatever the
    retry answers, a second 401 included, nothing more is sent. *)
Theorem refresh_then_single_retry :
  forall (rt : Runtime) (host : Host) (path : string) (o : RequestOptions)
         (w w1 w2 w3 : World) (req : Request) (r0 : Response),
    build_request host path o w = (Returned req, w1) ->
    fetch host req w1 = (Returned (Responded r0), w2) ->
    res_status r0 = 401 ->
    opt_noAuth o = false ->
    truthy (refreshToken (current host w2)) = true ->
    refreshAccessToken host w2 = (Returned true, w3) ->
    let rq := refresh_request (current host w2) in
    exists req',
      sent (snd (apiRequest host path o w)) = (sent w ++ [req; rq; req'])%list
      /\ req_url rq = refresh_endpoint (current host w2)
      /\ req_url req' = req_url req
      /\ req_method req' = req_method req
      /\ req_body req' = req_body req
      /\ fst (apiRequest host path o w)
         = match network host (sent w ++ [req; rq]) req' with
           | Responded r1 => parseResponse (opt_binary o) r1
           | Rejected m =>
               Returned (network_failure "Network error after token refresh: " m)
           end.
Proof.
  intros rt host path o w w1 w2 w3 req r0 Hbuild Hfetch Hst Hno Hrt Href rq.
  destruct (apiRequest_refreshed host _ _ _ _ _ _ _ _ Hbuild Hfetch Hst Hno Hrt Href)
    as [Hsent Hrun].
  eexists. rewrite Hrun. cbn [fst snd sent]. rewrite Hsent.
  split; [rewrite <- app_assoc; reflexivity|].
  repeat split; reflexivity.
Qed.

Lemma refresh_then_single_retry_witness :
  let host := Demo.host Demo.session_env
                [Responded Demo.expired;
                 Responded (Demo.new_tokens "fresh" "r2");
                 Responded Demo.expired] in
  let run := apiRequest host "/api/v1/clients" Demo.post_json Demo.fresh in
  exists req rq req',
    sent (snd run) = [req; rq; req']
    /\ req_url rq = "https://api.storno.ro/api/auth/token/refresh"
    /\ req_url req' = req_url req
    /\ req_method req' = req_method req
    /\ req_body req' = req_body req
    /\ fst run = Returned (Failure 401 (JStr "Expired JWT Token")
                                   (Some (JObj [("message", JStr "Expired JWT Token")]))).
Proof.
  intros host run.
  edestruct (refresh_then_single_retry Demo.runtime host "/api/v1/clients"
               Demo.post_json Demo.fresh)
    as (req' & Hsent & Hrq & Hurl & Hmeth & Hbody & Hrun).
  1, 2, 6: vm_compute; reflexivity.
  1, 2, 3: reflexivity.
  eexists _, _, req'.
  split; [exact Hsent|]. split; [exact Hrq|]. split; [exact Hurl|].
  split; [exact Hmeth|]. split; [exact Hbody|]. exact Hrun.
Defined.

(** C10.  After a successful refresh the retry carries [Bearer] followed
    by the token the refresh stored, whatever that token starts with:
    the test for the [af_] prefix is not made again. *)
Theorem retry_authorization_is_bearer :
  forall (rt : Runtime) (host : Host) (path : string) (o : RequestOptions)
         (w w1 w2 w3 : World) (req : Request) (r0 : Response) (t' : string),
    build_request host path o w = (Returned req, w1) ->
    fetch host req w1 = (Returned (Responded r0), w2) ->
    res_status r0 = 401 ->
    opt_noAuth o = false ->
    truthy (refreshToken (current host w2)) = true ->
    refreshAccessToken host w2 = (Returned true, w3) ->
    token (current host w3) = Some (JStr t') ->
    exists req',
      last (sent (snd (apiRequest host path o w))) = Some req'
      /\ req_headers req' !! "Authorization" = Some ("Bearer " ++ t').
Proof.
  intros rt host path o w w1 w2 w3 req r0 t' Hbuild Hfetch Hst Hno Hrt Href Htok.
  destruct (apiRequest_refreshed host _ _ _ _ _ _ _ _ Hbuild Hfetch Hst Hno Hrt Href)
    as [_ Hrun].
  eexists. rewrite Hrun. cbn [snd sent]. rewrite last_snoc.
  split; [reflexivity|].
  cbn [with_authorization req_headers]. rewrite Htok. apply lookup_insert_eq.
Qed.

Lemma retry_authorization_is_bearer_witness :
  let host := Demo.host Demo.session_env
                [Responded Demo.expired;
                 Responded (Demo.new_tokens "af_new" "r2");
                 Responded Demo.listing] in
  exists req',
    last (sent (snd (apiRequest host "/api/v1/clients" Demo.post_json Demo.fresh)))
    = Some req'
    /\ req_headers req' !! "Authorization" = Some "Bearer af_new".
Proof.
  intros host.
  edestruct (retry_authorization_is_bearer Demo.runtime host "/api/v1/clients"
               Demo.post_json Demo.fresh)
    as (req' & Hlast & Hauth).
  1, 2, 6: vm_compute; reflexivity.
  1, 2, 3: reflexivity.
  1: vm_compute; reflexivity.
  exists req'. split; [exact Hlast|exact Hauth].
Defined.

(** C2, at the input where the code departs from it.  The first answer
    is a 401 whose JSON body is [null] and the refresh is refused: the
    original answer is the one normalised, and reading [message] of
    [null] throws, so the call returns no [Failure]. *)
Lemma refresh_fallback_throws_on_null_body :
  let r401 := Demo.answer 401 (Some "application/json") (Some "null") (Some JNull) in
  let host := Demo.host Demo.session_env [Responded r401; Rejected "connection refused"] in
  let run := apiRequest host "/api/v1/clients" no_options Demo.fresh in
  fst (exchange host "/api/v1/clients" no_options Demo.fresh) = Returned (inr r401)
  /\ length (sent (snd run)) = 2%nat
  /\ fst run = Thrown (NullPropertyRead "message").
Proof.
  vm_compute. repeat split.
Qed.

(** C4, as amended.  An exception raised while the request is built (the
    base URL does not parse, the file to upload cannot be read) is not
    caught by the executor: the call throws it.  Once the request is
    built, a transport failure of the first [fetch] is returned as a
    [Failure] with status 0; and when the bodies the network answers with
    are usable, the call returns a value whatever else fails: the
    refresh, the transport of the retry, the parsing of a JSON body, the
    reading of a text body. *)
Theorem failures_are_returned_once_built :
  forall (rt : Runtime) (host : Host) (path : string) (o : RequestOptions) (w : World),
    (forall e w1,
        build_request host path o w = (Thrown e, w1) ->
        apiRequest host path o w = (Thrown e, w1))
    /\ (forall req w1 m,
          build_request host path o w = (Returned req, w1) ->
          network host (sent w) req = Rejected m ->
          fst (apiRequest host path o w)
          = Returned (Failure 0 (JStr ("Network error: " ++ m)) None))
    /\ (forall req w1,
          build_request host path o w = (Returned req, w1) ->
          (forall history r res,
              network host history r = Responded res ->
              body_usable (opt_binary o) res) ->
          exists result w', apiRequest host path o w = (Returned result, w')).
Proof.
  intros rt host path o w. split; [|split].
  - intros e w1 Hbuild. unfold apiRequest, exchange, bind. rewrite Hbuild. reflexivity.
  - intros req w1 m Hbuild Hnet.
    rewrite apiRequest_eq, (exchange_eq _ _ _ _ _ _ Hbuild), Hnet. reflexivity.
  - intros req w1 Hbuild Huse.
    rewrite apiRequest_eq, (exchange_eq _ _ _ _ _ _ Hbuild). cbv zeta.
    destruct (network host (sent w) req) as [r0|m] eqn:Hnet; [|eauto].
    destruct (parseResponse_returns (opt_binary o) r0 (Huse _ _ _ Hnet)) as [x0 Hx0].
    destruct (_ && _ && _); [|rewrite Hx0; eauto].
    destruct (refresh_update _) as [u|]; [|rewrite Hx0; eauto].
    destruct (network host _ (with_authorization _ _)) as [r1|m] eqn:Hnet1; [|eauto].
    destruct (parseResponse_returns (opt_binary o) r1 (Huse _ _ _ Hnet1)) as [x1 ->].
    eauto.
Qed.

Lemma failures_are_returned_once_built_witness :
  let host := Demo.host Demo.session_env
                [Responded Demo.expired; Rejected "connection reset";
                 Responded Demo.listing] in
  exists result w',
    apiRequest host "/api/v1/clients" Demo.post_json Demo.fresh = (Returned result, w').
Proof.
  intros host.
  eapply (failures_are_returned_once_built Demo.runtime host "/api/v1/clients"
            Demo.post_json Demo.fresh).
  - vm_compute. reflexivity.
  - intros history r res. unfold host, Demo.host, Demo.scripted. cbn [network].
    cbn [opt_binary Demo.post_json body_usable].
    destruct (length history) as [|[|[|[|n]]]]; cbn [nth]; intros Hnth;
      try discriminate Hnth; injection Hnth as <-; discriminate.
Defined.

(** C4, as stated, fails: with a file to upload that cannot be read, the
    call throws the error of the read and sends nothing. *)
Lemma unreadable_upload_throws :
  let host := Demo.host Demo.key_env [Responded Demo.listing] in
  let run := apiRequest host "/api/v1/backup/restore" (Demo.upload "/tmp/missing.zip")
               Demo.fresh in
  Demo.files "/tmp/missing.zip" = None
  /\ fst run = Thrown (FileReadError "/tmp/missing.zip")
  /\ sent (snd run) = []
  /\ forall result, fst run <> Returned result.
Proof.
  vm_compute. repeat split. discriminate.
Qed.

(* ===================================================================== *)
(** ** Further properties of the store and of the query string *)
(* ===================================================================== *)

Section MoreStoreProperties.

Lemma or_else_empty (b : option string) : or_else (Some EmptyString) b = b.
Proof. reflexivity. Qed.

Lemma strip_trailing_slash_cons (c : ascii) (s : string) :
  s <> EmptyString ->
  strip_trailing_slash (String c s) = String c (strip_trailing_slash s).
Proof. destruct s; [congruence|reflexivity]. Qed.

Lemma strip_trailing_slash_app (u : string) : strip_trailing_slash (u ++ "/") = u.
Proof.
  induction u as [|c u IH]; [reflexivity|].
  change (String c u ++ "/") with (String c (u ++ "/")).
  rewrite strip_trailing_slash_cons, IH; [reflexivity|].
  destruct u; discriminate.
Qed.

Lemma strip_trailing_slash_id (v : string) :
  (forall u, v <> u ++ "/") -> strip_trailing_slash v = v.
Proof.
  induction v as [|c v IH]; intros Hv; [reflexivity|].
  destruct v as [|c' r].
  - cbn [strip_trailing_slash]. destruct (Ascii.eqb c "/") eqn:E; [|reflexivity].
    apply Ascii.eqb_eq in E. subst c. exfalso. apply (Hv EmptyString). reflexivity.
  - rewrite strip_trailing_slash_cons by discriminate.
    f_equal. apply IH. intros u Hu. apply (Hv (String c u)).
    change (String c u ++ "/") with (String c (u ++ "/")).
    rewrite <- Hu. reflexivity.
Qed.

Lemma env_or_null_delete (env : gmap string string) (name key : string) :
  env !! name = Some EmptyString ->
  forall fallback, or_else (delete name env !! key) fallback = or_else (env !! key) fallback.
Proof.
  intros Hname fallback. destruct (decide (name = key)) as [<-|Hne].
  - rewrite lookup_delete_eq, Hname. reflexivity.
  - rewrite lookup_delete_ne by exact Hne. reflexivity.
Qed.

End MoreStoreProperties.

(** X1.  An environment variable set to the empty string counts as not
    set: the session created from the environment is the one created
    without that variable. *)
Theorem empty_variable_is_unset :
  forall (env : gmap string string) (name : string),
    env !! name = Some EmptyString ->
    initial_config env = initial_config (delete name env).
Proof.
  intros env name Hname. unfold initial_config, env_or_null.
  rewrite !(env_or_null_delete env name _ Hname). reflexivity.
Qed.

Lemma empty_variable_is_unset_witness :
  initial_config Scenario.slash_env
  = initial_config (delete "STORNO_TOKEN" Scenario.slash_env)
  /\ token (initial_config Scenario.slash_env) = Some JNull.
Proof.
  split; [|reflexivity].
  apply (empty_variable_is_unset Scenario.slash_env "STORNO_TOKEN").
  vm_compute. reflexivity.
Defined.

(** X2.  The base URL of a new session.  Without [STORNO_BASE_URL], or
    with an empty one, it is the production host.  A configured value
    ending in a slash loses that one slash, and only that one; any other
    non-empty value is taken as it is. *)
Theorem baseUrl_of_environment :
  forall (env : gmap string string),
    (env !! "STORNO_BASE_URL" = None \/ env !! "STORNO_BASE_URL" = Some EmptyString ->
     baseUrl (initial_config env) = "https://api.storno.ro")
    /\ (forall u, env !! "STORNO_BASE_URL" = Some (u ++ "/") ->
          baseUrl (initial_config env) = u)
    /\ (forall v, env !! "STORNO_BASE_URL" = Some v -> v <> EmptyString ->
          (forall u, v <> u ++ "/") ->
          baseUrl (initial_config env) = v).
Proof.
  intros env. unfold initial_config. cbn [baseUrl]. repeat split.
  - intros [-> | ->]; reflexivity.
  - intros u ->. unfold or_else, present.
    assert (String.eqb (u ++ "/") EmptyString = false) as ->
      by (apply String.eqb_neq; destruct u; discriminate).
    cbn [negb render]. apply strip_trailing_slash_app.
  - intros v -> Hv Hns. unfold or_else, present.
    apply String.eqb_neq in Hv. rewrite Hv. cbn [negb render].
    apply strip_trailing_slash_id, Hns.
Qed.

Lemma baseUrl_of_environment_witness :
  baseUrl (initial_config Scenario.slash_env) = "http://localhost:8000"
  /\ baseUrl (initial_config
                {[ "STORNO_BASE_URL" := "http://localhost:8000//" ]})
     = "http://localhost:8000/".
Proof.
  split.
  - apply (proj1 (proj2 (baseUrl_of_environment Scenario.slash_env))
             "http://localhost:8000").
    vm_compute. reflexivity.
  - apply (proj1 (proj2 (baseUrl_of_environment
                           {[ "STORNO_BASE_URL" := "http://localhost:8000//" ]}))
             "http://localhost:8000/").
    vm_compute. reflexivity.
Defined.

(** X3.  An update is observed by the next read, which finds the fields
    the update names replaced and the others as they were, and changes
    nothing itself; an update of a store not yet created first creates it
    from the environment; repeating an update changes nothing; of two
    updates the later one wins on the fields both name.  No update sends
    a request. *)
Theorem update_then_read :
  forall (host : Host) (w : World) (u u' : PartialConfig),
    let c := current host w in
    let w1 := snd (updateConfig host u w) in
    let w2 := snd (updateConfig host u' w1) in
    getConfig host w1 = (Returned (assign c u), w1)
    /\ snd (updateConfig host u w1) = w1
    /\ getConfig host w2 = (Returned (assign (assign c u) u'), w2)
    /\ token (assign (assign c u) u')
       = default (default (token c) (set_token u)) (set_token u')
    /\ sent w2 = sent w.
Proof.
  intros host w u u' c w1 w2. subst c w1 w2.
  repeat (rewrite updateConfig_eq; cbn [snd]).
  rewrite !getConfig_eq.
  unfold settled, current. cbn [_config default sent].
  repeat split.
  f_equal. f_equal. destruct u as [[?|] [?|] [?|] [?|] [?|] [?|]]; reflexivity.
Qed.

(** X4.  The query object [paginationQuery] makes, passed to the
    executor, gives the query string the page and the limit that were
    given, in this order, each printed as the platform prints a number,
    and nothing for the one that was not. *)
Theorem pagination_query_string :
  forall (rt : Runtime) (params : PaginationParams),
    apply_query (paginationQuery params) []
    = (match page params with
       | Some n => [("page", Number_toString n)]
       | None => []
       end
       ++ match limit params with
          | Some n => [("limit", Number_toString n)]
          | None => []
          end)%list.
Proof.
  intros rt [[p|] [l|]]; reflexivity.
Qed.

(* ===================================================================== *)
(** ** Further properties of the executor *)
(* ===================================================================== *)

Section MoreExecutorProperties.

Context {rt : Runtime} (host : Host).

Lemma build_request_thrown path o w e w1 :
  build_request host path o w = (Thrown e, w1) ->
  apiRequest host path o w = (Thrown e, settled host w).
Proof.
  intros Hbuild. pose proof (build_request_settles _ _ _ _ _ _ Hbuild) as ->.
  unfold apiRequest, exchange, bind. rewrite Hbuild. reflexivity.
Qed.

(** The calls that end after one request. *)
Lemma apiRequest_single path o w req w1 :
  build_request host path o w = (Returned req, w1) ->
  opt_noAuth o = true
  \/ truthy (refreshToken (current host w)) = false
  \/ (forall r0, network host (sent w) req = Responded r0 -> res_status r0 <> 401) ->
  apiRequest host path o w
  = (match network host (sent w) req with
     | Responded r0 => parseResponse (opt_binary o) r0
     | Rejected m => Returned (network_failure "Network error: " m)
     end,
     {| _config := Some (current host w); sent := sent w ++ [req] |}).
Proof.
  intros Hbuild Hwhy.
  rewrite apiRequest_eq, (exchange_eq _ _ _ _ _ _ Hbuild). cbv zeta.
  destruct (network host (sent w) req) as [r0|m]; [|reflexivity].
  assert ((res_status r0 =? 401) && negb (opt_noAuth o)
          && truthy (refreshToken (current host w)) = false) as ->; [|reflexivity].
  destruct Hwhy as [-> | [-> | Hst]].
  - apply andb_false_intro1, andb_false_intro2. reflexivity.
  - apply andb_false_intro2. reflexivity.
  - apply andb_false_intro1, andb_false_intro1, Z.eqb_neq, Hst. reflexivity.
Qed.

(** The update a refresh makes names the two tokens and nothing else. *)
Lemma refresh_update_names out u :
  refresh_update out = Some u ->
  set_baseUrl u = None /\ set_companyId u = None
  /\ set_email u = None /\ set_password u = None.
Proof.
  unfold refresh_update. destruct out as [res|m]; [|discriminate].
  destruct (res_ok res); [|discriminate].
  destruct (res_json res) as [[]|]; try discriminate;
    intros [= <-]; repeat split.
Qed.

(** The four ways a call can leave the world. *)
Lemma apiRequest_world path o w :
  let c := current host w in
  let w' := snd (apiRequest host path o w) in
  w' = settled host w
  \/ (exists req, w' = {| _config := Some c; sent := sent w ++ [req] |})
  \/ (exists req,
        opt_noAuth o = false
        /\ w' = {| _config := Some c; sent := sent w ++ [req; refresh_request c] |})
  \/ (exists req req' out u,
        opt_noAuth o = false
        /\ refresh_update out = Some u
        /\ w' = {| _config := Some (assign c u);
                   sent := sent w ++ [req; refresh_request c; req'] |}).
Proof.
  intros c w'. subst c w'.
  destruct (build_request host path o w) as [[req|e] w1] eqn:Hbuild.
  2: { left. rewrite (build_request_thrown _ _ _ _ _ Hbuild). reflexivity. }
  right. rewrite apiRequest_eq, (exchange_eq _ _ _ _ _ _ Hbuild). cbv zeta.
  destruct (network host (sent w) req) as [r0|m]; [|left; eexists; reflexivity].
  destruct ((res_status r0 =? 401) && negb (opt_noAuth o)
            && truthy (refreshToken (current host w))) eqn:Hcond;
    [|left; eexists; reflexivity].
  apply andb_prop in Hcond as [Hcond _]. apply andb_prop in Hcond as [_ Hno].
  apply negb_true_iff in Hno. right.
  destruct (refresh_update _) as [u|] eqn:Hu.
  - right. exists req. eexists. eexists. exists u.
    split; [exact Hno|]. split; [exact Hu|].
    destruct (network host _ (with_authorization _ _)); cbn [snd];
      rewrite <- !app_assoc; reflexivity.
  - left. exists req. split; [exact Hno|]. cbn [snd].
    rewrite <- !app_assoc. reflexivity.
Qed.

(** Where a returned result comes from. *)
Lemma apiRequest_result_origin path o w result w' :
  apiRequest host path o w = (Returned result, w') ->
  (exists m, result = network_failure "Network error: " m
             \/ result = network_failure "Network error after token refresh: " m)
  \/ (exists res, parseResponse (opt_binary o) res = Returned result).
Proof.
  destruct (build_request host path o w) as [[req|e] w1] eqn:Hbuild.
  2: { rewrite (build_request_thrown _ _ _ _ _ Hbuild). discriminate. }
  rewrite apiRequest_eq, (exchange_eq _ _ _ _ _ _ Hbuild). cbv zeta.
  destruct (network host (sent w) req) as [r0|m].
  2: { intros [= <- _]. left. eauto. }
  destruct (_ && _ && _).
  - destruct (refresh_update _) as [u|].
    + destruct (network host _ (with_authorization _ _)) as [r1|m].
      * intros [= H _]. right. eauto.
      * intros [= <- _]. left. eauto.
    + intros [= H _]. right. eauto.
  - intros [= H _]. right. eauto.
Qed.

Lemma parseResponse_success binary res s d :
  parseResponse binary res = Returned (Success s d) ->
  s = res_status res /\ res_ok res = true.
Proof.
  unfold parseResponse. destruct binary.
  - destruct (res_ok res) eqn:Hok; cbn [negb]; [|discriminate].
    destruct (res_arrayBuffer res); [|discriminate]. intros [= <- _]. auto.
  - destruct (res_status res =? 204) eqn:E.
    { apply Z.eqb_eq in E. intros [= <- _]. unfold res_ok. rewrite E. auto. }
    destruct (negb (includes _ _)).
    + destruct (res_ok res); cbn [negb]; [|discriminate]. intros [= <- _]. auto.
    + destruct (res_json res) as [data|]; [|discriminate].
      destruct (res_ok res); cbn [negb].
      * intros [= <- _]. auto.
      * destruct data; discriminate.
Qed.

Lemma error_of_truthy errBody status : truthy (Some (error_of errBody status)) = true.
Proof.
  unfold error_of.
  destruct (truthy (js_prop "message" errBody)) eqn:Hm.
  { destruct (js_prop "message" errBody); [exact Hm|discriminate Hm]. }
  destruct (truthy (js_prop "error" errBody)) eqn:He.
  { destruct (js_prop "error" errBody); [exact He|discriminate He]. }
  reflexivity.
Qed.

Lemma parseResponse_failure binary res s e d :
  parseResponse binary res = Returned (Failure s e d) ->
  s = res_status res
  /\ (res_ok res = true ->
      binary = false /\ e = JStr "Failed to parse JSON response" /\ d = None)
  /\ (binary = false -> truthy (Some e) = true).
Proof.
  unfold parseResponse. destruct binary.
  - destruct (res_ok res) eqn:Hok; cbn [negb].
    + destruct (res_arrayBuffer res); discriminate.
    + intros [= <- _ _]. split; [reflexivity|]. split; discriminate.
  - destruct (res_status res =? 204); [discriminate|].
    destruct (negb (includes _ _)).
    + destruct (res_ok res); cbn [negb]; [discriminate|].
      intros [= <- <- <-]. split; [reflexivity|]. split; [discriminate|]. intros _.
      cbn [truthy].
      destruct (String.eqb (default EmptyString (res_text res)) EmptyString) eqn:E;
        [reflexivity|]. rewrite E. reflexivity.
    + destruct (res_json res) as [data|].
      * destruct (res_ok res); cbn [negb]; [discriminate|].
        destruct data; try discriminate; intros [= <- <- <-];
          (split; [reflexivity|]); (split; [discriminate|]);
          intros _; apply error_of_truthy.
      * intros [= <- <- <-]. split; [reflexivity|]. split; [|reflexivity].
        intros _. repeat split.
Qed.

End MoreExecutorProperties.

Section RequestHeaders.

Context {rt : Runtime} (host : Host).

Lemma build_body_other h o w h' b key :
  build_body host h o w = (Returned (h', b), w) ->
  key <> "Content-Type" ->
  h' !! key = h !! key.
Proof.
  unfold build_body, ret, throw. intros Hb Hkey.
  destruct (present (opt_filePath o)).
  - destruct (readFileSync host _); [|discriminate]. injection Hb as <- _. reflexivity.
  - destruct (opt_body o); injection Hb as <- _; [|reflexivity].
    apply lookup_insert_ne. congruence.
Qed.

Lemma auth_header_skipped c o h0 h w :
  auth_header c o h0 w = (Returned h, w) ->
  opt_noAuth o = true \/ truthy (token c) = false ->
  h = h0.
Proof.
  unfold auth_header. intros Hh Hwhy.
  assert (negb (opt_noAuth o) && truthy (token c) = false) as E.
  { destruct Hwhy as [-> | ->]; [reflexivity|apply andb_false_r]. }
  rewrite E in Hh. unfold ret in Hh. injection Hh as <-. reflexivity.
Qed.

Lemma build_request_company path o w w1 req :
  build_request host path o w = (Returned req, w1) ->
  req_headers req !! "X-Company"
  = let effectiveCompanyId :=
      or_else (opt_companyId o) (companyId (current host w)) in
    if present effectiveCompanyId then effectiveCompanyId
    else opt_headers o !! "X-Company".
Proof.
  intros Hbuild. cbv zeta.
  destruct (build_request_inv host _ _ _ _ _ Hbuild) as (url & h & _ & Hauth & Hbody & _).
  rewrite (build_body_other _ _ _ _ _ _ (Hbody w)) by discriminate.
  unfold company_header.
  destruct (or_else (opt_companyId o) (companyId (current host w))) as [cid|] eqn:E.
  - destruct (present (Some cid)); [apply lookup_insert_eq|].
    eapply auth_header_other; [exact (Hauth w)|discriminate].
  - cbn [present]. eapply auth_header_other; [exact (Hauth w)|discriminate].
Qed.

Lemma build_request_unauthorized path o w w1 req :
  build_request host path o w = (Returned req, w1) ->
  opt_noAuth o = true \/ truthy (token (current host w)) = false ->
  req_headers req !! "Authorization" = opt_headers o !! "Authorization".
Proof.
  intros Hbuild Hwhy.
  destruct (build_request_inv host _ _ _ _ _ Hbuild) as (url & h & _ & Hauth & Hbody & _).
  rewrite (build_body_other _ _ _ _ _ _ (Hbody w)) by discriminate.
  rewrite company_header_other by discriminate.
  rewrite (auth_header_skipped _ _ _ _ _ (Hauth w) Hwhy). reflexivity.
Qed.

Lemma build_request_authorized path o w w1 req t :
  build_request host path o w = (Returned req, w1) ->
  opt_noAuth o = false ->
  token (current host w) = Some (JStr t) ->
  t <> EmptyString ->
  req_headers req !! "Authorization" = Some (authorization t).
Proof.
  intros Hbuild Hno Htok Ht.
  destruct (build_request_inv host _ _ _ _ _ Hbuild) as (url & h & _ & Hauth & Hbody & _).
  rewrite (build_body_other _ _ _ _ _ _ (Hbody w)) by discriminate.
  rewrite company_header_other by discriminate.
  exact (auth_header_authorization _ _ _ _ _ _ (Hauth w) Hno Htok Ht).
Qed.

End RequestHeaders.

(** X5.  The tenant header of a built request: the company given with the
    call when it is a non-empty string, else the company of the session
    when that is one, replacing an [X-Company] the caller may have put in
    the headers; and with neither, the headers of the caller decide. *)
Theorem tenant_header_resolution :
  forall (rt : Runtime) (host : Host) (path : string) (o : RequestOptions)
         (w w1 : World) (req : Request),
    build_request host path o w = (Returned req, w1) ->
    req_headers req !! "X-Company"
    = let effectiveCompanyId :=
        or_else (opt_companyId o) (companyId (current host w)) in
      if present effectiveCompanyId then effectiveCompanyId
      else opt_headers o !! "X-Company".
Proof.
  intros rt host path o w w1 req Hbuild.
  exact (build_request_company host _ _ _ _ _ Hbuild).
Qed.

Lemma tenant_header_resolution_witness :
  let host := Demo.host Scenario.tenant_env [] in
  exists req1 req2 w1 w2,
    build_request host "/api/v1/clients" no_options Demo.fresh = (Returned req1, w1)
    /\ req_headers req1 !! "X-Company" = Some "c-1"
    /\ build_request host "/api/v1/clients" (Scenario.get_with_company "c-2") Demo.fresh
       = (Returned req2, w2)
    /\ req_headers req2 !! "X-Company" = Some "c-2".
Proof.
  intros host. eexists _, _, _, _.
  split; [vm_compute; reflexivity|].
  split; [exact (tenant_header_resolution Demo.runtime host "/api/v1/clients"
                   no_options Demo.fresh _ _ eq_refl)|].
  split; [vm_compute; reflexivity|].
  exact (tenant_header_resolution Demo.runtime host "/api/v1/clients"
           (Scenario.get_with_company "c-2") Demo.fresh _ _ eq_refl).
Defined.

(** X6.  No [Authorization] is injected when [noAuth] is set, or when the
    session holds no token ([null] or the empty string): the request
    carries what the headers of the caller held under that name,
    nothing if they held nothing. *)
Theorem no_authorization_injected :
  forall (rt : Runtime) (host : Host) (path : string) (o : RequestOptions)
         (w w1 : World) (req : Request),
    build_request host path o w = (Returned req, w1) ->
    opt_noAuth o = true \/ truthy (token (current host w)) = false ->
    req_headers req !! "Authorization" = opt_headers o !! "Authorization".
Proof.
  intros rt host path o w w1 req Hbuild Hwhy.
  exact (build_request_unauthorized host _ _ _ _ _ Hbuild Hwhy).
Qed.

Lemma no_authorization_injected_witness :
  let host := Demo.host Demo.session_env [] in
  let o := post_unauthenticated [("email", JStr "a@b.ro"); ("password", JStr "secret")] in
  exists req w1,
    build_request host "/api/auth" o Demo.fresh = (Returned req, w1)
    /\ req_headers req !! "Authorization" = None.
Proof.
  intros host o. eexists _, _.
  split; [vm_compute; reflexivity|].
  apply (no_authorization_injected Demo.runtime host "/api/auth" o Demo.fresh _ _ eq_refl).
  left. reflexivity.
Defined.

(** X7.  A call ends after one request when [noAuth] is set, or the
    session holds no refresh token, or the answer is not a 401: the
    outcome is the normalisation of that answer, or the [Failure] with
    status 0 of a transport error, no refresh is attempted and the session
    is left as the call read it. *)
Theorem single_request_without_refresh :
  forall (rt : Runtime) (host : Host) (path : string) (o : RequestOptions)
         (w w1 : World) (req : Request),
    build_request host path o w = (Returned req, w1) ->
    opt_noAuth o = true
    \/ truthy (refreshToken (current host w)) = false
    \/ (forall r0, network host (sent w) req = Responded r0 -> res_status r0 <> 401) ->
    apiRequest host path o w
    = (match network host (sent w) req with
       | Responded r0 => parseResponse (opt_binary o) r0
       | Rejected m => Returned (Failure 0 (JStr ("Network error: " ++ m)) None)
       end,
       {| _config := Some (current host w); sent := sent w ++ [req] |}).
Proof.
  intros rt host path o w w1 req Hbuild Hwhy.
  exact (apiRequest_single host _ _ _ _ _ Hbuild Hwhy).
Qed.

Lemma single_request_without_refresh_witness :
  let host := Demo.host Demo.session_env [Responded Scenario.bad_credentials] in
  let o := post_unauthenticated [("email", JStr "a@b.ro"); ("password", JStr "wrong")] in
  exists req,
    apiRequest host "/api/auth" o Demo.fresh
    = (Returned (Failure 401 (JStr "Invalid credentials.")
                         (Some (JObj [("message", JStr "Invalid credentials.")]))),
       {| _config := Some (initial_config Demo.session_env); sent := [req] |}).
Proof.
  intros host o. eexists.
  refine (single_request_without_refresh Demo.runtime host "/api/auth" o Demo.fresh
            _ _ _ (or_introl eq_refl)).
  vm_compute. reflexivity.
Defined.

(** X8.  A call only appends to the requests sent, and appends at most
    three: the request, the refresh, the retry.  With [noAuth] set it
    appends at most one. *)
Theorem at_most_three_requests :
  forall (rt : Runtime) (host : Host) (path : string) (o : RequestOptions) (w : World),
    exists extra,
      sent (snd (apiRequest host path o w)) = (sent w ++ extra)%list
      /\ (length extra <= 3)%nat
      /\ (opt_noAuth o = true -> (length extra <= 1)%nat).
Proof.
  intros rt host path o w.
  destruct (apiRequest_world host path o w)
    as [-> | [[req ->] | [(req & Hno & ->) | (req & req' & out & u & Hno & _ & ->)]]];
    cbn [sent settled].
  - exists []. rewrite app_nil_r. cbn. repeat split; lia.
  - exists [req]. cbn. repeat split; lia.
  - exists [req; refresh_request (current host w)]. cbn.
    repeat split; [lia|]. rewrite Hno. discriminate.
  - exists [req; refresh_request (current host w); req']. cbn.
    repeat split; [lia|]. rewrite Hno. discriminate.
Qed.

(** X9.  A call never changes the base URL, the company, the email or
    the password of the session; the tokens it can change, by a refresh
    only; with [noAuth] set the session is after the call as the call
    read it. *)
Theorem apiRequest_session_frame :
  forall (rt : Runtime) (host : Host) (path : string) (o : RequestOptions) (w : World),
    let c := current host w in
    let c' := current host (snd (apiRequest host path o w)) in
    baseUrl c' = baseUrl c
    /\ companyId c' = companyId c
    /\ email c' = email c
    /\ password c' = password c
    /\ (opt_noAuth o = true -> c' = c).
Proof.
  intros rt host path o w c c'. subst c c'.
  destruct (apiRequest_world host path o w)
    as [-> | [[req ->] | [(req & Hno & ->) | (req & req' & out & u & Hno & Hu & ->)]]];
    unfold current at 1 3 5 7 9; cbn [_config settled default].
  1, 2, 3: repeat split.
  destruct (refresh_update_names _ _ Hu) as (Hb & Hc & He & Hp).
  unfold assign. cbn [baseUrl companyId email password].
  rewrite Hb, Hc, He, Hp. repeat split.
  rewrite Hno. discriminate.
Qed.

(** X10.  A [Success] always carries an OK status: no answer outside
    200..299 is ever returned as a success. *)
Theorem success_status_is_ok :
  forall (rt : Runtime) (host : Host) (path : string) (o : RequestOptions)
         (w w' : World) (status : Z) (data : json),
    apiRequest host path o w = (Returned (Success status data), w') ->
    200 <= status <= 299.
Proof.
  intros rt host path o w w' status data Hrun.
  destruct (apiRequest_result_origin host _ _ _ _ _ Hrun) as [[m [H|H]] | [res Hres]];
    try discriminate.
  destruct (parseResponse_success _ _ _ _ Hres) as [-> Hok].
  unfold res_ok in Hok. lia.
Qed.

Lemma success_status_is_ok_witness :
  let host := Demo.host Demo.key_env [Responded Demo.listing] in
  exists w',
    apiRequest host "/api/v1/clients" no_options Demo.fresh
    = (Returned (Success 200 (JArr [])), w')
    /\ 200 <= 200 <= 299.
Proof.
  intros host. eexists.
  assert (H : apiRequest host "/api/v1/clients" no_options Demo.fresh
              = (Returned (Success 200 (JArr [])), _)) by (vm_compute; reflexivity).
  split; [exact H|].
  exact (success_status_is_ok Demo.runtime host _ _ _ _ _ _ H).
Defined.

(** X11.  A [Failure] carrying an OK status comes from one place only:
    a body that was announced as JSON and did not parse.  Its message is
    the fixed one, it has no details, and the caller did not expect
    binary data. *)
Theorem ok_status_failure_is_parse_failure :
  forall (rt : Runtime) (host : Host) (path : string) (o : RequestOptions)
         (w w' : World) (status : Z) (error : json) (details : option json),
    apiRequest host path o w = (Returned (Failure status error details), w') ->
    200 <= status <= 299 ->
    opt_binary o = false
    /\ error = JStr "Failed to parse JSON response"
    /\ details = None.
Proof.
  intros rt host path o w w' status error details Hrun Hst.
  destruct (apiRequest_result_origin host _ _ _ _ _ Hrun) as [[m [H|H]] | [res Hres]].
  1, 2: injection H as -> _ _; lia.
  destruct (parseResponse_failure _ _ _ _ _ Hres) as (-> & Hok & _).
  apply Hok. unfold res_ok. apply andb_true_intro. split; apply Z.leb_le; lia.
Qed.

Lemma ok_status_failure_is_parse_failure_witness :
  let res := Demo.answer 200 (Some "application/json") (Some "<html>") None in
  let host := Demo.host Demo.key_env [Responded res] in
  exists w',
    apiRequest host "/api/v1/clients" no_options Demo.fresh
    = (Returned (Failure 200 (JStr "Failed to parse JSON response") None), w').
Proof.
  intros res host.
  assert (H : exists e d w', apiRequest host "/api/v1/clients" no_options Demo.fresh
                             = (Returned (Failure 200 e d), w'))
    by (eexists _, _, _; vm_compute; reflexivity).
  destruct H as (e & d & w' & H). exists w'.
  destruct (ok_status_failure_is_parse_failure Demo.runtime host _ _ _ _ _ _ _ H)
    as (_ & He & Hd); [lia|].
  rewrite <- He, <- Hd. exact H.
Defined.



(** X13.  [refreshAccessToken] never throws.  Without a refresh token in
    the session it returns [false] and sends nothing; with one it sends
    exactly one request, the refresh, which carries no [Authorization].
    When it returns [false] the session is as it was, and in every case
    the base URL and the company of the session are as they were. *)
Theorem refreshAccessToken_is_contained :
  forall (rt : Runtime) (host : Host) (w : World),
    let c := current host w in
    exists b w',
      refreshAccessToken host w = (Returned b, w')
      /\ (truthy (refreshToken c) = false -> b = false /\ sent w' = sent w)
      /\ (truthy (refreshToken c) = true ->
          sent w' = (sent w ++ [refresh_request c])%list)
      /\ (b = false -> _config w' = Some c)
      /\ baseUrl (current host w') = baseUrl c
      /\ companyId (current host w') = companyId c
      /\ req_headers (refresh_request c) !! "Authorization" = None.
Proof.
  intros rt host w c. subst c.
  destruct (truthy (refreshToken (current host w))) eqn:Hrt.
  - rewrite (refreshAccessToken_eq host w Hrt). cbv zeta.
    destruct (refresh_update _) as [u|] eqn:Hu; eexists _, _;
      (split; [reflexivity|]); cbn [sent _config];
      (split; [discriminate|]); (split; [reflexivity|]).
    + split; [discriminate|].
      destruct (refresh_update_names _ _ Hu) as (Hb & Hc & _).
      unfold current at 1 3. cbn [_config default]. unfold assign.
      cbn [baseUrl companyId]. rewrite Hb, Hc. repeat split.
    + repeat split.
  - unfold refreshAccessToken, bind. rewrite getConfig_eq, Hrt. cbn [negb].
    eexists _, _. split; [reflexivity|]. cbn [sent settled _config].
    repeat split. discriminate.
Qed.

Lemma refreshAccessToken_is_contained_witness :
  let host := Demo.host Demo.key_env [Responded Demo.listing] in
  refreshAccessToken host Demo.fresh = (Returned false, settled host Demo.fresh)
  /\ sent (settled host Demo.fresh) = [].
Proof.
  intros host.
  destruct (refreshAccessToken_is_contained Demo.runtime host Demo.fresh)
    as (b & w' & Hrun & Hnone & _).
  destruct (Hnone eq_refl) as [-> Hsent].
  split; [|reflexivity].
  rewrite Hrun. f_equal.
  assert (H : refreshAccessToken host Demo.fresh = (Returned false, settled host Demo.fresh))
    by (vm_compute; reflexivity).
  rewrite Hrun in H. injection H as <-. reflexivity.
Defined.

(** X14.  The retry after a successful refresh carries, under every name
    other than [Authorization], the header the original request carried:
    the tenant header, the content type and the headers of the caller are
    sent again unchanged. *)
Theorem retry_keeps_other_headers :
  forall (rt : Runtime) (host : Host) (path : string) (o : RequestOptions)
         (w w1 w2 w3 : World) (req : Request) (r0 : Response),
    build_request host path o w = (Returned req, w1) ->
    fetch host req w1 = (Returned (Responded r0), w2) ->
    res_status r0 = 401 ->
    opt_noAuth o = false ->
    truthy (refreshToken (current host w2)) = true ->
    refreshAccessToken host w2 = (Returned true, w3) ->
    exists req',
      last (sent (snd (apiRequest host path o w))) = Some req'
      /\ forall name, name <> "Authorization" ->
           req_headers req' !! name = req_headers req !! name.
Proof.
  intros rt host path o w w1 w2 w3 req r0 Hbuild Hfetch Hst Hno Hrt Href.
  destruct (apiRequest_refreshed host _ _ _ _ _ _ _ _ Hbuild Hfetch Hst Hno Hrt Href)
    as [_ Hrun].
  eexists. rewrite Hrun. cbn [snd sent]. rewrite last_snoc.
  split; [reflexivity|].
  intros name Hname. cbn [with_authorization req_headers].
  apply lookup_insert_ne. congruence.
Qed.

Lemma retry_keeps_other_headers_witness :
  let host := Demo.host
                {[ "STORNO_TOKEN" := "old"; "STORNO_REFRESH_TOKEN" := "r1";
                   "STORNO_COMPANY_ID" := "c-1" ]}
                [Responded Demo.expired;
                 Responded (Demo.new_tokens "fresh" "r2");
                 Responded Demo.listing] in
  exists req',
    last (sent (snd (apiRequest host "/api/v1/clients" Demo.post_json Demo.fresh)))
    = Some req'
    /\ req_headers req' !! "X-Company" = Some "c-1"
    /\ req_headers req' !! "Content-Type" = Some "application/json".
Proof.
  intros host.
  edestruct (retry_keeps_other_headers Demo.runtime host "/api/v1/clients"
               Demo.post_json Demo.fresh)
    as (req' & Hlast & Hsame).
  1, 2, 6: vm_compute; reflexivity.
  1, 2, 3: reflexivity.
  exists req'. split; [exact Hlast|].
  split; (rewrite Hsame by discriminate; vm_compute; reflexivity).
Defined.

(* ===================================================================== *)
(** ** Properties of the tool handlers and of the automatic login *)
(* ===================================================================== *)

Section ToolProperties.

Context {rt : Runtime} {pr : Printer} (host : Host).

(** A call made after a read of the store is the call made before it. *)
Lemma apiRequest_settled path o w :
  apiRequest host path o (settled host w) = apiRequest host path o w.
Proof.
  unfold apiRequest, exchange, build_request, bind. rewrite !getConfig_eq. reflexivity.
Qed.

(** The request of an unauthenticated JSON post. *)
Lemma unauthenticated_post_request path body w req w1 :
  build_request host path (post_unauthenticated body) w = (Returned req, w1) ->
  req_method req = POST
  /\ req_headers req !! "Authorization" = None
  /\ req_headers req !! "Content-Type" = Some "application/json"
  /\ req_body req = TextBody (JSON_stringify (JObj body)).
Proof.
  intros Hbuild.
  pose proof (build_request_unauthorized host _ _ _ _ _ Hbuild (or_introl eq_refl)) as Hauth.
  destruct (build_request_inv host _ _ _ _ _ Hbuild) as (url & h & _ & _ & Hbody & _ & Hm).
  specialize (Hbody w). unfold build_body in Hbody. cbn in Hbody.
  unfold ret in Hbody. injection Hbody as Hh Hb.
  repeat split.
  - exact Hm.
  - exact Hauth.
  - rewrite <- Hh. apply lookup_insert_eq.
  - symmetry. exact Hb.
Qed.

(** What the end of a login does to the world, for data other than
    [null]. *)
Lemma store_and_report_eq message data w :
  data <> JNull ->
  store_and_report host message data w
  = (match js_prop "token" data with
     | Some (JStr t) =>
         Returned (JSON_pretty (JObj [("success", JBool true);
                                      ("message", JStr message);
                                      ("tokenPreview", JStr (tokenPreview t))]))
     | Some JNull => Thrown (NullPropertyRead "substring")
     | None => Thrown (NullPropertyRead "substring")
     | Some _ => Thrown (NotAFunction "substring")
     end,
     {| _config := Some (assign (current host w)
                                (token_update (js_prop "token" data)
                                              (js_prop "refresh_token" data)));
        sent := sent w |}).
Proof.
  intros Hdata. unfold store_and_report, bind.
  destruct data; try congruence; rewrite updateConfig_eq;
    destruct (js_prop "token" _) as [[]|]; reflexivity.
Qed.

Lemma store_and_report_sent message data w :
  sent (snd (store_and_report host message data w)) = sent w.
Proof.
  destruct data;
    try (rewrite store_and_report_eq by discriminate; reflexivity).
  reflexivity.
Qed.

(** The outcome of [auth_login] once its request is built. *)
Lemma auth_login_eq email password w req w1 :
  build_request host "/api/auth"
    (post_unauthenticated [("email", JStr email); ("password", JStr password)]) w
  = (Returned req, w1) ->
  let after := {| _config := Some (current host w); sent := sent w ++ [req] |} in
  auth_login host email password w
  = match network host (sent w) req with
    | Rejected m =>
        (Returned (formatResponse (network_failure "Network error: " m)), after)
    | Responded r0 =>
        match parseResponse false r0 with
        | Returned (Failure s e d) => (Returned (formatResponse (Failure s e d)), after)
        | Returned (Success _ data) =>
            store_and_report host "Logged in successfully. Token stored in session."
                             data after
        | Thrown e => (Thrown e, after)
        end
    end.
Proof.
  intros Hbuild after. unfold auth_login, bind.
  rewrite (apiRequest_single host _ _ _ _ _ Hbuild (or_introl eq_refl)).
  cbn [opt_binary post_unauthenticated]. fold after.
  destruct (network host (sent w) req) as [r0|m]; [|reflexivity].
  destruct (parseResponse false r0) as [[s d|s e d]|e]; reflexivity.
Qed.

End ToolProperties.

(** X15.  [auth_login] sends exactly one request, whatever the session
    holds and whatever the server answers: a POST with the JSON body of
    the email and the password, marked as JSON, without [Authorization].
    A 401 answer starts no refresh. *)
Theorem auth_login_sends_one_unauthenticated_post :
  forall (rt : Runtime) (pr : Printer) (host : Host) (email password : string)
         (w w1 : World) (req : Request),
    build_request host "/api/auth"
      (post_unauthenticated [("email", JStr email); ("password", JStr password)]) w
    = (Returned req, w1) ->
    sent (snd (auth_login host email password w)) = (sent w ++ [req])%list
    /\ req_method req = POST
    /\ req_headers req !! "Authorization" = None
    /\ req_headers req !! "Content-Type" = Some "application/json"
    /\ req_body req
       = TextBody (JSON_stringify (JObj [("email", JStr email);
                                         ("password", JStr password)])).
Proof.
  intros rt pr host email password w w1 req Hbuild.
  split; [|exact (unauthenticated_post_request host _ _ _ _ _ Hbuild)].
  rewrite (auth_login_eq host _ _ _ _ _ Hbuild). cbv zeta.
  destruct (network host (sent w) req) as [r0|m]; [|reflexivity].
  destruct (parseResponse false r0) as [[s d|s e d]|e]; try reflexivity.
  apply store_and_report_sent.
Qed.

Lemma auth_login_sends_one_unauthenticated_post_witness :
  let host := Demo.host Demo.session_env
                [Responded Scenario.bad_credentials; Responded Demo.listing] in
  exists req,
    sent (snd (auth_login host "a@b.ro" "wrong" Demo.fresh)) = [req]
    /\ req_method req = POST
    /\ req_headers req !! "Authorization" = None
    /\ req_headers req !! "Content-Type" = Some "application/json"
    /\ req_body req
       = TextBody (Demo.stringify (JObj [("email", JStr "a@b.ro");
                                         ("password", JStr "wrong")])).
Proof.
  intros host. eexists.
  eapply (auth_login_sends_one_unauthenticated_post Demo.runtime Scenario.printer host
            "a@b.ro" "wrong" Demo.fresh).
  vm_compute. reflexivity.
Defined.



(** X17.  A login answered with a success whose data holds a string under
    [token] stores that token and what the data holds under
    [refresh_token], leaves the base URL and the company of the session
    alone, and reports the first twenty characters of the token.  A later
    request that does not bypass authentication is authorised with the new
    token. *)
Theorem auth_login_stores_tokens :
  forall (rt : Runtime) (pr : Printer) (host : Host) (email password : string)
         (w w1 : World) (req : Request) (r0 : Response) (s : Z) (data : json)
         (t : string),
    build_request host "/api/auth"
      (post_unauthenticated [("email", JStr email); ("password", JStr password)]) w
    = (Returned req, w1) ->
    network host (sent w) req = Responded r0 ->
    parseResponse false r0 = Returned (Success s data) ->
    js_prop "token" data = Some (JStr t) ->
    let w' := snd (auth_login host email password w) in
    fst (auth_login host email password w)
    = Returned (JSON_pretty
                  (JObj [("success", JBool true);
                         ("message",
                          JStr "Logged in successfully. Token stored in session.");
                         ("tokenPreview", JStr (substring 0 20 t ++ "..."))]))
    /\ token (current host w') = Some (JStr t)
    /\ refreshToken (current host w') = js_prop "refresh_token" data
    /\ baseUrl (current host w') = baseUrl (current host w)
    /\ companyId (current host w') = companyId (current host w)
    /\ (forall path o req2 w2,
          opt_noAuth o = false ->
          t <> EmptyString ->
          build_request host path o w' = (Returned req2, w2) ->
          req_headers req2 !! "Authorization" = Some (authorization t)).
Proof.
  intros rt pr host email password w w1 req r0 s data t Hbuild Hnet Hparse Htok w'.
  subst w'. rewrite (auth_login_eq host _ _ _ _ _ Hbuild), Hnet, Hparse. cbv zeta.
  assert (Hdata : data <> JNull) by (intros ->; discriminate).
  rewrite (store_and_report_eq host _ _ _ Hdata), Htok. cbn [fst snd].
  repeat split.
  intros path o req2 w2 Hno Ht Hb.
  exact (build_request_authorized host _ _ _ _ _ _ Hb Hno eq_refl Ht).
Qed.

Lemma auth_login_stores_tokens_witness :
  let host := Demo.host Demo.session_env
                [Responded (Demo.new_tokens "eyJhbGciOiJSUzI1NiJ9.payload" "r9")] in
  let run := auth_login host "a@b.ro" "secret" Demo.fresh in
  fst run
  = Returned (Demo.stringify
                (JObj [("success", JBool true);
                       ("message",
                        JStr "Logged in successfully. Token stored in session.");
                       ("tokenPreview", JStr "eyJhbGciOiJSUzI1NiJ9...")]))
  /\ token (current host (snd run)) = Some (JStr "eyJhbGciOiJSUzI1NiJ9.payload")
  /\ refreshToken (current host (snd run)) = Some (JStr "r9").
Proof.
  intros host run.
  edestruct (auth_login_stores_tokens Demo.runtime Scenario.printer host
               "a@b.ro" "secret" Demo.fresh)
    as (Hfst & Htok & Href & _).
  1, 2, 3, 4: vm_compute; reflexivity.
  split; [exact Hfst|]. split; [exact Htok|exact Href].
Defined.

(** X18.  A login answered with a success whose data is not [null] and
    holds nothing under [token] (a text answer, an object without the
    field) throws, and by then the tokens of the session have been
    overwritten: the session is left without token, whatever token it held
    before. *)
Theorem auth_login_without_token_clears_session :
  forall (rt : Runtime) (pr : Printer) (host : Host) (email password : string)
         (w w1 : World) (req : Request) (r0 : Response) (s : Z) (data : json),
    build_request host "/api/auth"
      (post_unauthenticated [("email", JStr email); ("password", JStr password)]) w
    = (Returned req, w1) ->
    network host (sent w) req = Responded r0 ->
    parseResponse false r0 = Returned (Success s data) ->
    data <> JNull ->
    js_prop "token" data = None ->
    let w' := snd (auth_login host email password w) in
    fst (auth_login host email password w) = Thrown (NullPropertyRead "substring")
    /\ token (current host w') = None
    /\ truthy (token (current host w')) = false
    /\ refreshToken (current host w') = js_prop "refresh_token" data.
Proof.
  intros rt pr host email password w w1 req r0 s data Hbuild Hnet Hparse Hdata Htok w'.
  subst w'. rewrite (auth_login_eq host _ _ _ _ _ Hbuild), Hnet, Hparse. cbv zeta.
  rewrite (store_and_report_eq host _ _ _ Hdata), Htok. cbn [fst snd].
  repeat split.
Qed.

Lemma auth_login_without_token_clears_session_witness :
  let host := Demo.host Demo.session_env
                [Responded (Demo.answer 200 (Some "text/plain") (Some "OK") None)] in
  let run := auth_login host "a@b.ro" "secret" Demo.fresh in
  token (initial_config Demo.session_env) = Some (JStr "old")
  /\ fst run = Thrown (NullPropertyRead "substring")
  /\ token (current host (snd run)) = None.
Proof.
  intros host run. split; [reflexivity|].
  edestruct (auth_login_without_token_clears_session Demo.runtime Scenario.printer host
               "a@b.ro" "secret" Demo.fresh)
    as (Hfst & Htok & _).
  1, 2, 3: vm_compute; reflexivity.
  1: discriminate.
  1: reflexivity.
  split; [exact Hfst|exact Htok].
Defined.

Section SessionToolProperties.

Context {rt : Runtime} {pr : Printer} (host : Host).

(** The token [auth_refresh] sends: the parameter when it is a non-empty
    string, else the refresh token of the session. *)
Lemma auth_refresh_eq paramToken w req w1 :
  let v := if present paramToken then js_of paramToken
           else refreshToken (current host w) in
  truthy v = true ->
  build_request host "/api/auth/token/refresh"
    (post_unauthenticated [("refresh_token", default JNull v)]) w
  = (Returned req, w1) ->
  let after := {| _config := Some (current host w); sent := sent w ++ [req] |} in
  auth_refresh host paramToken w
  = match network host (sent w) req with
    | Rejected m =>
        (Returned (formatResponse (network_failure "Network error: " m)), after)
    | Responded r0 =>
        match parseResponse false r0 with
        | Returned (Failure s e d) => (Returned (formatResponse (Failure s e d)), after)
        | Returned (Success _ data) =>
            store_and_report host
              "Token refreshed successfully. New tokens stored in session." data after
        | Thrown e => (Thrown e, after)
        end
    end.
Proof.
  intros v Hv Hbuild after. unfold auth_refresh, bind.
  rewrite getConfig_eq. fold v. rewrite Hv. cbn [negb].
  rewrite apiRequest_settled.
  rewrite (apiRequest_single host _ _ _ _ _ Hbuild (or_introl eq_refl)).
  cbn [opt_binary post_unauthenticated]. fold after.
  destruct (network host (sent w) req) as [r0|m]; [|reflexivity].
  destruct (parseResponse false r0) as [[s d|s e d]|e]; reflexivity.
Qed.

(** The world after [companies_select]. *)
Lemma companies_select_eq cid w :
  snd (companies_select host cid w)
  = {| _config :=
         Some (assign (current host w)
                 {| set_baseUrl := None; set_token := None; set_refreshToken := None;
                    set_companyId := Some (Some cid); set_email := None;
                    set_password := None |});
       sent := sent w |}.
Proof. unfold companies_select, bind. rewrite updateConfig_eq. reflexivity. Qed.

(** The outcome of the automatic login once it is attempted and its
    request is built. *)
Lemma autoLogin_eq w req w1 :
  let c := current host w in
  truthy (token c) = false ->
  present (email c) = true ->
  present (password c) = true ->
  build_request host "/api/auth"
    (post_unauthenticated [("email", JStr (render (email c)));
                           ("password", JStr (render (password c)))]) w
  = (Returned req, w1) ->
  let after := {| _config := Some c; sent := sent w ++ [req] |} in
  autoLogin host w
  = match network host (sent w) req with
    | Rejected m => (Returned tt, after)
    | Responded r0 =>
        match parseResponse false r0 with
        | Returned (Failure _ _ _) => (Returned tt, after)
        | Returned (Success _ JNull) => (Thrown (NullPropertyRead "token"), after)
        | Returned (Success _ data) =>
            (Returned tt,
             {| _config := Some (assign c (token_update (js_prop "token" data)
                                                        (js_prop "refresh_token" data)));
                sent := sent w ++ [req] |})
        | Thrown e => (Thrown e, after)
        end
    end.
Proof.
  intros c Htok Hemail Hpass Hbuild after. unfold autoLogin, bind.
  rewrite getConfig_eq. fold c. rewrite Htok, Hemail, Hpass. cbn [negb andb].
  rewrite apiRequest_settled.
  change (apiRequest host "/api/auth" _ w)
    with (apiRequest host "/api/auth"
            (post_unauthenticated [("email", JStr (render (email c)));
                                   ("password", JStr (render (password c)))]) w).
  rewrite (apiRequest_single host _ _ _ _ _ Hbuild (or_introl eq_refl)).
  cbn [opt_binary post_unauthenticated]. fold c. fold after.
  destruct (network host (sent w) req) as [r0|m]; [|reflexivity].
  destruct (parseResponse false r0) as [[s d|s e d]|e]; try reflexivity.
  destruct d; try reflexivity; rewrite updateConfig_eq; reflexivity.
Qed.

(** The company [backup_restore] resolves. *)
Lemma getCompanyId_eq param w :
  getCompanyId host param (settled host w)
  = (Returned (or_else param (companyId (current host w))), settled host w).
Proof.
  unfold getCompanyId, or_else, bind.
  destruct (present param); [reflexivity|]. rewrite getConfig_eq. reflexivity.
Qed.

(** [backup_restore] past its two guards. *)
Lemma backup_restore_eq filePath purgeExisting param w :
  let c := current host w in
  let cid := or_else param (companyId c) in
  truthy (token c) = true ->
  present cid = true ->
  backup_restore host filePath purgeExisting param w
  = (match fst (apiRequest host "/api/v1/backup/restore"
                  (restore_options cid filePath purgeExisting) w) with
     | Returned result => Returned (formatResponse result)
     | Thrown e => Thrown e
     end,
     snd (apiRequest host "/api/v1/backup/restore"
            (restore_options cid filePath purgeExisting) w)).
Proof.
  intros c cid Htok Hcid. unfold backup_restore, bind.
  rewrite getConfig_eq. fold c. rewrite Htok. cbn [negb].
  rewrite getCompanyId_eq. fold c. fold cid. rewrite Hcid. cbn [negb].
  rewrite apiRequest_settled.
  destruct (apiRequest host _ _ w) as [[result|e] w']; reflexivity.
Qed.

End SessionToolProperties.

(** X19.  [auth_refresh] without a usable token, that is, with no
    parameter (or an empty one) and no refresh token in the session,
    returns its fixed error text and sends nothing. *)
Theorem auth_refresh_without_token :
  forall (rt : Runtime) (pr : Printer) (host : Host) (paramToken : option string)
         (w : World),
    present paramToken = false ->
    truthy (refreshToken (current host w)) = false ->
    auth_refresh host paramToken w
    = (Returned "Error: No refresh token available. Please login first using auth_login.",
       settled host w).
Proof.
  intros rt pr host paramToken w Hparam Hrt. unfold auth_refresh, bind.
  rewrite getConfig_eq, Hparam, Hrt. reflexivity.
Qed.

Lemma auth_refresh_without_token_witness :
  let host := Demo.host Demo.key_env [Responded Demo.listing] in
  auth_refresh host (Some EmptyString) Demo.fresh
  = (Returned "Error: No refresh token available. Please login first using auth_login.",
     settled host Demo.fresh)
  /\ sent (settled host Demo.fresh) = [].
Proof.
  intros host. split; [|reflexivity].
  apply (auth_refresh_without_token Demo.runtime Scenario.printer host
           (Some EmptyString) Demo.fresh); reflexivity.
Defined.

(** X20.  [auth_refresh] with a usable token sends exactly one request:
    an unauthenticated JSON post whose body holds, as [refresh_token],
    the parameter when it is a non-empty string and the refresh token of
    the session otherwise. *)
Theorem auth_refresh_sends_chosen_token :
  forall (rt : Runtime) (pr : Printer) (host : Host) (paramToken : option string)
         (w w1 : World) (req : Request),
    let v := if present paramToken then js_of paramToken
             else refreshToken (current host w) in
    truthy v = true ->
    build_request host "/api/auth/token/refresh"
      (post_unauthenticated [("refresh_token", default JNull v)]) w
    = (Returned req, w1) ->
    sent (snd (auth_refresh host paramToken w)) = (sent w ++ [req])%list
    /\ req_method req = POST
    /\ req_headers req !! "Authorization" = None
    /\ req_body req = TextBody (JSON_stringify (JObj [("refresh_token", default JNull v)])).
Proof.
  intros rt pr host paramToken w w1 req v Hv Hbuild.
  destruct (unauthenticated_post_request host _ _ _ _ _ Hbuild) as (Hm & Ha & _ & Hb).
  split; [|repeat split; assumption].
  rewrite (auth_refresh_eq host _ _ _ _ Hv Hbuild). cbv zeta.
  destruct (network host (sent w) req) as [r0|m]; [|reflexivity].
  destruct (parseResponse false r0) as [[s d|s e d]|e]; try reflexivity.
  apply store_and_report_sent.
Qed.

Lemma auth_refresh_sends_chosen_token_witness :
  let host := Demo.host Demo.session_env [Responded (Demo.new_tokens "t2" "r2")] in
  exists req,
    sent (snd (auth_refresh host (Some "given") Demo.fresh)) = [req]
    /\ req_method req = POST
    /\ req_headers req !! "Authorization" = None
    /\ req_body req
       = TextBody (Demo.stringify (JObj [("refresh_token", JStr "given")])).
Proof.
  intros host.
  edestruct (auth_refresh_sends_chosen_token Demo.runtime Scenario.printer host
               (Some "given") Demo.fresh)
    as (Hsent & Hm & Ha & Hb).
  1: reflexivity.
  1: vm_compute; reflexivity.
  eexists. split; [exact Hsent|]. split; [exact Hm|]. split; [exact Ha|exact Hb].
Defined.

(** X21.  [companies_select] sends nothing and changes the company of the
    session only.  After it, a request built without a company of its own
    carries the selected company as [X-Company]; selecting the empty
    string leaves such a request with the headers of its caller only. *)
Theorem companies_select_sets_tenant :
  forall (rt : Runtime) (pr : Printer) (host : Host) (cid : string) (w : World),
    let w' := snd (companies_select host cid w) in
    sent w' = sent w
    /\ companyId (current host w') = Some cid
    /\ token (current host w') = token (current host w)
    /\ refreshToken (current host w') = refreshToken (current host w)
    /\ baseUrl (current host w') = baseUrl (current host w)
    /\ forall path o req w2,
         present (opt_companyId o) = false ->
         build_request host path o w' = (Returned req, w2) ->
         req_headers req !! "X-Company"
         = if String.eqb cid EmptyString then opt_headers o !! "X-Company"
           else Some cid.
Proof.
  intros rt pr host cid w w'. subst w'. rewrite companies_select_eq.
  cbn [sent]. unfold current at 1 3 5 7. cbn [_config default].
  repeat split.
  intros path o req w2 Hnone Hbuild.
  rewrite (build_request_company host _ _ _ _ _ Hbuild).
  unfold or_else. rewrite Hnone.
  match goal with
  | |- context [companyId (current host ?x)] =>
      change (companyId (current host x)) with (Some cid)
  end.
  cbn [present]. destruct (String.eqb cid EmptyString); reflexivity.
Qed.

Lemma companies_select_sets_tenant_witness :
  let host := Demo.host Demo.key_env [] in
  let w' := snd (companies_select host "c-9" Demo.fresh) in
  exists req w2,
    build_request host "/api/v1/clients" no_options w' = (Returned req, w2)
    /\ req_headers req !! "X-Company" = Some "c-9".
Proof.
  intros host w'. eexists _, _.
  split; [vm_compute; reflexivity|].
  destruct (companies_select_sets_tenant Demo.runtime Scenario.printer host "c-9"
              Demo.fresh) as (_ & _ & _ & _ & _ & Hreq).
  exact (Hreq "/api/v1/clients" no_options _ _ eq_refl eq_refl).
Defined.

(** X22.  The automatic login is not attempted, and nothing is sent, when
    the session has a token, or no email, or no password. *)
Theorem autoLogin_skipped :
  forall (rt : Runtime) (host : Host) (w : World),
    let c := current host w in
    truthy (token c) = true \/ present (email c) = false \/ present (password c) = false ->
    autoLogin host w = (Returned tt, settled host w).
Proof.
  intros rt host w c Hwhy. unfold autoLogin, bind. rewrite getConfig_eq. fold c.
  assert (negb (truthy (token c)) && present (email c) && present (password c) = false)
    as ->; [|reflexivity].
  destruct Hwhy as [-> | [-> | ->]].
  - reflexivity.
  - apply andb_false_intro1, andb_false_r.
  - apply andb_false_r.
Qed.

Lemma autoLogin_skipped_witness :
  let host := Demo.host Demo.key_env [Responded Demo.listing] in
  autoLogin host Demo.fresh = (Returned tt, settled host Demo.fresh)
  /\ sent (settled host Demo.fresh) = [].
Proof.
  intros host. split; [|reflexivity].
  apply (autoLogin_skipped Demo.runtime host Demo.fresh). left. reflexivity.
Defined.

(** X23.  The automatic login, when attempted, sends one unauthenticated
    post of the email and the password.  A transport error or an answer
    normalised to a [Failure] is silent: the login returns normally and
    the session stays as it was, without token.  A success with data other
    than [null] stores what the data holds under [token] and
    [refresh_token] and leaves the rest of the session alone. *)
Theorem autoLogin_outcome :
  forall (rt : Runtime) (host : Host) (w w1 : World) (req : Request),
    let c := current host w in
    truthy (token c) = false ->
    present (email c) = true ->
    present (password c) = true ->
    build_request host "/api/auth"
      (post_unauthenticated [("email", JStr (render (email c)));
                             ("password", JStr (render (password c)))]) w
    = (Returned req, w1) ->
    let after := {| _config := Some c; sent := sent w ++ [req] |} in
    req_headers req !! "Authorization" = None
    /\ (forall m, network host (sent w) req = Rejected m ->
                  autoLogin host w = (Returned tt, after))
    /\ (forall r0 s e d,
          network host (sent w) req = Responded r0 ->
          parseResponse false r0 = Returned (Failure s e d) ->
          autoLogin host w = (Returned tt, after))
    /\ (forall r0 s data,
          network host (sent w) req = Responded r0 ->
          parseResponse false r0 = Returned (Success s data) ->
          data <> JNull ->
          autoLogin host w
          = (Returned tt,
             {| _config :=
                  Some {| baseUrl := baseUrl c;
                          token := js_prop "token" data;
                          refreshToken := js_prop "refresh_token" data;
                          companyId := companyId c;
                          email := email c;
                          password := password c |};
                sent := sent w ++ [req] |})).
Proof.
  intros rt host w w1 req c Htok Hemail Hpass Hbuild after.
  pose proof (autoLogin_eq host _ _ _ Htok Hemail Hpass Hbuild) as Heq.
  cbv zeta in Heq. fold c in Heq. fold after in Heq.
  split; [exact (proj1 (proj2 (unauthenticated_post_request host _ _ _ _ _ Hbuild)))|].
  split; [|split].
  - intros m Hnet. rewrite Heq, Hnet. reflexivity.
  - intros r0 s e d Hnet Hparse. rewrite Heq, Hnet, Hparse. reflexivity.
  - intros r0 s data Hnet Hparse Hdata. rewrite Heq, Hnet, Hparse.
    destruct data; try congruence; reflexivity.
Qed.

Lemma autoLogin_outcome_witness :
  let host := Demo.host Scenario.credentials_env [Responded (Demo.new_tokens "t1" "r1")] in
  let w' := snd (autoLogin host Demo.fresh) in
  fst (autoLogin host Demo.fresh) = Returned tt
  /\ token (current host w') = Some (JStr "t1")
  /\ refreshToken (current host w') = Some (JStr "r1")
  /\ length (sent w') = 1%nat.
Proof.
  intros host w'. subst w'.
  edestruct (autoLogin_outcome Demo.runtime host Demo.fresh)
    as (_ & _ & _ & Hsuccess).
  1, 2, 3: reflexivity.
  1: vm_compute; reflexivity.
  erewrite Hsuccess; [| vm_compute; reflexivity | vm_compute; reflexivity | discriminate].
  repeat split.
Defined.

(** X24.  The guards of [backup_restore], in their order: without a token
    in the session the handler returns the text of [notAuthenticated],
    whether or not a company is known; with a token but no company, from
    the parameter or from the session, it returns the text of
    [noCompanySelected].  In both cases nothing is sent and no file is
    read. *)
Theorem backup_restore_guards :
  forall (rt : Runtime) (pr : Printer) (host : Host) (filePath : string)
         (purgeExisting : option bool) (param : option string) (w : World),
    let c := current host w in
    (truthy (token c) = false ->
     backup_restore host filePath purgeExisting param w
     = (Returned notAuthenticated, settled host w))
    /\ (truthy (token c) = true ->
        present (or_else param (companyId c)) = false ->
        backup_restore host filePath purgeExisting param w
        = (Returned noCompanySelected, settled host w)).
Proof.
  intros rt pr host filePath purgeExisting param w c. split.
  - intros Htok. unfold backup_restore, bind. rewrite getConfig_eq. fold c.
    rewrite Htok. reflexivity.
  - intros Htok Hcid. unfold backup_restore, bind. rewrite getConfig_eq. fold c.
    rewrite Htok. cbn [negb]. rewrite getCompanyId_eq. fold c. rewrite Hcid.
    reflexivity.
Qed.

Lemma backup_restore_guards_witness :
  let anonymous := Demo.host ∅ [Responded Demo.listing] in
  let keyed := Demo.host Demo.key_env [Responded Demo.listing] in
  backup_restore anonymous "/tmp/in.csv" None (Some "c-1") Demo.fresh
  = (Returned notAuthenticated, settled anonymous Demo.fresh)
  /\ backup_restore keyed "/tmp/in.csv" None None Demo.fresh
     = (Returned noCompanySelected, settled keyed Demo.fresh).
Proof.
  intros anonymous keyed. split.
  - apply (proj1 (backup_restore_guards Demo.runtime Scenario.printer anonymous
                    "/tmp/in.csv" None (Some "c-1") Demo.fresh)).
    reflexivity.
  - apply (proj2 (backup_restore_guards Demo.runtime Scenario.printer keyed
                    "/tmp/in.csv" None None Demo.fresh)); reflexivity.
Defined.



(** X26.  A restore whose file cannot be read throws the error of the
    read, past both guards, and sends nothing: the error is not turned
    into a text by the handler. *)
Theorem backup_restore_unreadable_file :
  forall (rt : Runtime) (pr : Printer) (host : Host) (filePath : string)
         (purgeExisting : option bool) (param : option string) (w : World)
         (t : string) (url : URL),
    let c := current host w in
    token c = Some (JStr t) ->
    t <> EmptyString ->
    present (or_else param (companyId c)) = true ->
    filePath <> EmptyString ->
    URL_parse "/api/v1/backup/restore" (baseUrl c) = Some url ->
    readFileSync host filePath = None ->
    backup_restore host filePath purgeExisting param w
    = (Thrown (FileReadError filePath), settled host w).
Proof.
  intros rt pr host filePath purgeExisting param w t url c Htok Ht Hcid Hfile Hurl Hread.
  assert (Htruthy : truthy (token c) = true).
  { rewrite Htok. cbn [truthy]. apply String.eqb_neq in Ht. rewrite Ht. reflexivity. }
  rewrite (backup_restore_eq host _ _ _ _ Htruthy Hcid). fold c.
  assert (Hbuild : build_request host "/api/v1/backup/restore"
                     (restore_options (or_else param (companyId c)) filePath purgeExisting) w
                   = (Thrown (FileReadError filePath), settled host w)).
  { unfold build_request, bind. rewrite getConfig_eq. fold c.
    unfold build_url. rewrite Hurl. cbn [ret].
    unfold auth_header. cbn [opt_noAuth restore_options negb andb].
    rewrite Htruthy, Htok. cbn [ret].
    unfold build_body. cbn [opt_filePath restore_options present render].
    apply String.eqb_neq in Hfile. rewrite Hfile. cbn [negb]. rewrite Hread.
    reflexivity. }
  rewrite (build_request_thrown host _ _ _ _ _ Hbuild). reflexivity.
Qed.

Lemma backup_restore_unreadable_file_witness :
  let host := Demo.host Scenario.tenant_env [Responded Demo.listing] in
  backup_restore host "/tmp/missing.zip" None None Demo.fresh
  = (Thrown (FileReadError "/tmp/missing.zip"), settled host Demo.fresh)
  /\ sent (settled host Demo.fresh) = [].
Proof.
  intros host. split; [|reflexivity].
  eapply (backup_restore_unreadable_file Demo.runtime Scenario.printer host
            "/tmp/missing.zip" None None Demo.fresh "jwt").
  - reflexivity.
  - discriminate.
  - reflexivity.
  - discriminate.
  - vm_compute. reflexivity.
  - reflexivity.
Defined.
